(** * Dev.to MCP server: a shallow embedding of [server.py]

    The server exposes a handful of tools.  Every tool issues one or two
    HTTP requests against the Dev.to REST API and turns the JSON answer
    into Markdown-like text.  This development embeds

    - the JSON values that [response.json()] hands to the program,
    - the three formatters ([format_articles], [format_article_details],
      [format_user_profile]),
    - the tool handlers, as computations over a scripted HTTP peer that
      records every request it receives,

    and states the properties of the specification over them. *)

From Stdlib Require Import String Ascii List ZArith Lia Bool Arith.
From Stdlib Require Import DecimalString.
From Stdlib Require Import Floats.SpecFloat.
Import ListNotations.

Local Open Scope list_scope.
Local Open Scope string_scope.

(* ================================================================== *)
(** * Text *)
(* ================================================================== *)

Module Text.

(** The line feed written ["\n"] in the Python source. *)
Definition LF : ascii := "010"%char.
Definition nl : string := String LF "".

(** Python's [sub in s] on two [str] values. *)
Fixpoint contains (sub s : string) : bool :=
  if String.prefix sub s then true
  else match s with
       | EmptyString => false
       | String _ s' => contains sub s'
       end.

(** The specification's wording of the same test: [sub] occurs in [s]
    as a contiguous run of characters. *)
Definition is_substring (sub s : string) : Prop :=
  exists before after, s = before ++ sub ++ after.

(** The text cut at every line feed.  A text always has at least one
    line; a trailing line feed opens a last, empty line. *)
Fixpoint lines (s : string) : list string :=
  match s with
  | EmptyString => [""]
  | String c s' =>
      if Ascii.eqb c LF then "" :: lines s'
      else match lines s' with
           | l :: ls => String c l :: ls
           | [] => [String c ""]
           end
  end.

(** No line feed occurs in the text. *)
Fixpoint single_line (s : string) : bool :=
  match s with
  | EmptyString => true
  | String c s' => negb (Ascii.eqb c LF) && single_line s'
  end.

(** How many lines of the text start with [p]. *)
Definition count_prefixed (p : string) (ls : list string) : nat :=
  List.length (List.filter (String.prefix p) ls).

Definition lines_starting (p s : string) : nat :=
  count_prefixed p (lines s).

(** Lines starting with [p] that the text opens by itself when it is
    spliced into a line: all its lines but the first. *)
Definition inner_lines_starting (p s : string) : nat :=
  count_prefixed p (List.tl (lines s)).

(** The first line of a text. *)
Definition first_line (s : string) : string := List.hd "" (lines s).

(** Lower-casing of the ASCII letters, every other byte unchanged. *)
Definition ascii_lower (c : ascii) : ascii :=
  let n := nat_of_ascii c in
  if ((65 <=? n) && (n <=? 90))%nat then ascii_of_nat (n + 32) else c.

Fixpoint lower_ascii (s : string) : string :=
  match s with
  | EmptyString => EmptyString
  | String c s' => String (ascii_lower c) (lower_ascii s')
  end.

(** ["".join(parts)] *)
Fixpoint cat (parts : list string) : string :=
  match parts with
  | [] => ""
  | p :: rest => p ++ cat rest
  end.

(** The text whose lines are [bodies], each closed by a line feed. *)
Definition render_lines (bodies : list string) : string :=
  cat (List.map (fun b => b ++ nl) bodies).

(** Some line of the text starts with [p]. *)
Definition has_line_starting (p s : string) : bool :=
  List.existsb (String.prefix p) (lines s).

(** [", ".join(parts)] *)
Definition join (sep : string) (parts : list string) : string :=
  String.concat sep parts.

(** Decimal rendering of an integer, as [str(n)] gives it. *)
Definition decimal (z : Z) : string :=
  NilZero.string_of_int (Z.to_int z).

End Text.
Import Text.

(* ================================================================== *)
(** * JSON values and exceptions *)
(* ================================================================== *)

(** What [response.json()] returns.  An object is kept as the list of
  its items in insertion order, the order a Python [dict] iterates and
  prints in. *)
#[warnings="-register-all"]
Inductive json : Type :=
| JNull
| JBool (b : bool)
| JInt (z : Z)
| JFloat (f : spec_float)
| JStr (s : string)
| JList (items : list json)
| JObj (items : list (string * json)).

(** The exceptions that can leave a handler. *)
Inductive exn : Type :=
| HTTPStatusError (status_code : Z)   (* raise_for_status() *)
| RequestError                        (* any other transport failure *)
| AttributeError                      (* [.get] / [.lower] on a value without it *)
| TypeError.                          (* not iterable, not sliceable, str + non-str *)

(** A call either returns or raises. *)
Inductive outcome (A : Type) : Type :=
| Ok (a : A)
| Raise (e : exn).
Arguments Ok {A} a.
Arguments Raise {A} e.

Definition bind {A B} (m : outcome A) (k : A -> outcome B) : outcome B :=
match m with
| Ok a => k a
| Raise e => Raise e
end.

Declare Scope outcome_scope.
Delimit Scope outcome_scope with outcome.
Notation "x <- m ;; k" := (bind m (fun x => k))
(at level 61, m at next level, right associativity) : outcome_scope.

(** [for x in xs: acc = body(acc, x)], stopping at the first exception. *)
Fixpoint for_each {S A} (body : S -> A -> outcome S) (xs : list A) (acc : S)
: outcome S :=
match xs with
| [] => Ok acc
| x :: rest => bind (body acc x) (for_each body rest)
end.

(* ================================================================== *)
(** * Python dictionaries and built-ins *)
(* ================================================================== *)

Module Dict.

(** [d[k]] when the key is there. *)
Fixpoint lookup (k : string) (d : list (string * json)) : option json :=
  match d with
  | [] => None
  | (k', v) :: rest => if String.eqb k k' then Some v else lookup k rest
  end.

(** [d[k] = v]: overwrite in place, or append a new item. *)
Fixpoint set (k : string) (v : json) (d : list (string * json))
  : list (string * json) :=
  match d with
  | [] => [(k, v)]
  | (k', v') :: rest =>
      if String.eqb k k' then (k, v) :: rest else (k', v') :: set k v rest
  end.

Definition keys (d : list (string * json)) : list string := List.map fst d.

End Dict.

(** The parts of the Python runtime whose exact output is fixed by the
  interpreter, not by this program: the shortest-round-trip printing of
  a [float], the quoting [repr] applies to a [str], and the
  Unicode-aware [str.lower]. *)
Class PyBuiltins : Type := {
float_repr : spec_float -> string;
str_repr : string -> string;
str_lower : string -> string
}.

(** An instance to run the model with.  It agrees with CPython on ASCII
  text free of quotes, backslashes and control characters, and on the
  zeros, infinities and NaN; a finite float is printed from its
  mantissa and exponent. *)
Definition ascii_float_repr (f : spec_float) : string :=
match f with
| S754_zero false => "0.0"
| S754_zero true => "-0.0"
| S754_infinity false => "inf"
| S754_infinity true => "-inf"
| S754_nan => "nan"
| S754_finite s m e =>
    (if s then "-" else "") ++ decimal (Zpos m) ++ "*2**" ++ decimal e
end.

Definition ascii_builtins : PyBuiltins := {|
float_repr := ascii_float_repr;
str_repr := fun s => "'" ++ s ++ "'";
str_lower := lower_ascii
|}.

Section Builtins.

Context {py : PyBuiltins}.

(** [bool(v)], the test behind [if v:] and [if not v:]. *)
Definition truthy (v : json) : bool :=
  match v with
  | JNull => false
  | JBool b => b
  | JInt z => negb (Z.eqb z 0)
  | JFloat (S754_zero _) => false
  | JFloat _ => true
  | JStr s => negb (String.eqb s "")
  | JList l => match l with [] => false | _ => true end
  | JObj d => match d with [] => false | _ => true end
  end.

(** [repr(v)]. *)
Fixpoint py_repr (v : json) : string :=
  match v with
  | JNull => "None"
  | JBool true => "True"
  | JBool false => "False"
  | JInt z => decimal z
  | JFloat f => float_repr f
  | JStr s => str_repr s
  | JList l => "[" ++ join ", " (List.map py_repr l) ++ "]"
  | JObj d =>
      "{" ++ join ", "
               (List.map (fun kv => str_repr (fst kv) ++ ": " ++ py_repr (snd kv)) d)
          ++ "}"
  end.

(** [str(v)], which is what an f-string placeholder [{v}] inserts. *)
Definition py_str (v : json) : string :=
  match v with
  | JStr s => s
  | _ => py_repr v
  end.

(** [v.get(key, default)]: only a [dict] has the method. *)
Definition py_get (v : json) (key : string) (default : json) : outcome json :=
  match v with
  | JObj d =>
      Ok (match Dict.lookup key d with
          | Some x => x
          | None => default
          end)
  | _ => Raise AttributeError
  end.

(** [v.lower()]: only a [str] has the method. *)
Definition py_lower (v : json) : outcome string :=
  match v with
  | JStr s => Ok (str_lower s)
  | _ => Raise AttributeError
  end.

(** The values a [for] loop over [v] visits: the items of a list, the
    keys of a [dict], the characters of a [str] (here its bytes; the
    program never gets past the first of them, which has no [.get]). *)
Definition py_iter (v : json) : outcome (list json) :=
  match v with
  | JList l => Ok l
  | JObj d => Ok (List.map JStr (Dict.keys d))
  | JStr s =>
      Ok (List.map (fun c => JStr (String c "")) (list_ascii_of_string s))
  | _ => Raise TypeError
  end.

(** [v[:n]].  A [dict] rejects a slice ([TypeError] up to Python 3.11,
    [KeyError] from 3.12 on; the model keeps the former).  The slice of
    a [str] is cut by bytes here; it is empty exactly when the [str] is,
    which is all the formatter looks at before it raises. *)
Definition py_slice_to (n : nat) (v : json) : outcome json :=
  match v with
  | JList l => Ok (JList (List.firstn n l))
  | JStr s => Ok (JStr (String.substring 0 n s))
  | _ => Raise TypeError
  end.

(** [text += v] for a [str] on the left. *)
Definition py_concat (text : string) (v : json) : outcome string :=
  match v with
  | JStr s => Ok (text ++ s)
  | _ => Raise TypeError
  end.

End Builtins.

(* ================================================================== *)
(** * Helper formatting functions *)
(* ================================================================== *)

Section Formatters.

Context {py : PyBuiltins}.
Local Open Scope outcome_scope.

Definition articles_header : string := "# Dev.to Articles" ++ nl ++ nl.

(** One round of the loop of [format_articles]: the text so far and the
    next article give the text with that article's entry appended. *)
Definition format_articles_step (result : string) (article : json)
  : outcome string :=
  title <- py_get article "title" (JStr "Untitled") ;;
  user <- py_get article "user" (JObj []) ;;
  author <- py_get user "name" (JStr "Unknown Author") ;;
  published_date <- py_get article "readable_publish_date" (JStr "Unknown date") ;;
  article_id <- py_get article "id" (JStr "") ;;
  tags <- py_get article "tags" (JStr "") ;;
  let result := result ++ ("## " ++ py_str title ++ nl) in
  let result := result ++ ("ID: " ++ py_str article_id ++ nl) in
  let result := result ++ ("Author: " ++ py_str author ++ nl) in
  let result := result ++ ("Published: " ++ py_str published_date ++ nl) in
  let result := result ++ ("Tags: " ++ py_str tags ++ nl) in
  description <- py_get article "description" (JStr "No description available.") ;;
  Ok (result ++ ("Description: " ++ py_str description ++ nl ++ nl)).

Definition format_articles (articles : json) : outcome string :=
  if negb (truthy articles) then Ok "No articles found."
  else
    items <- py_iter articles ;;
    for_each format_articles_step items articles_header.

Definition format_article_details (article : json) : outcome string :=
  if negb (truthy article) then Ok "Article not found."
  else
    title <- py_get article "title" (JStr "Untitled") ;;
    user <- py_get article "user" (JObj []) ;;
    author <- py_get user "name" (JStr "Unknown Author") ;;
    published_date <- py_get article "readable_publish_date" (JStr "Unknown date") ;;
    body <- py_get article "body_markdown" (JStr "No content available.") ;;
    tags <- py_get article "tags" (JStr "") ;;
    let result := "# " ++ py_str title ++ nl ++ nl in
    let result := result ++ ("Author: " ++ py_str author ++ nl) in
    let result := result ++ ("Published: " ++ py_str published_date ++ nl) in
    let result := result ++ ("Tags: " ++ py_str tags ++ nl ++ nl) in
    let result := result ++ ("## Content" ++ nl ++ nl) in
    py_concat result body.

Definition format_user_profile (user : json) : outcome string :=
  if negb (truthy user) then Ok "User not found."
  else
    username <- py_get user "username" (JStr "Unknown") ;;
    name <- py_get user "name" (JStr "Unknown") ;;
    bio <- py_get user "summary" (JStr "No bio available.") ;;
    twitter <- py_get user "twitter_username" (JStr "") ;;
    github <- py_get user "github_username" (JStr "") ;;
    website <- py_get user "website_url" (JStr "") ;;
    location <- py_get user "location" (JStr "") ;;
    joined <- py_get user "joined_at" (JStr "") ;;
    let result := "# " ++ py_str name ++ " (@" ++ py_str username ++ ")" ++ nl ++ nl in
    let result := result ++ ("Bio: " ++ py_str bio ++ nl ++ nl) in
    let result := result ++ ("## Details" ++ nl) in
    let result :=
      if truthy location then result ++ ("Location: " ++ py_str location ++ nl)
      else result in
    let result :=
      if truthy joined then result ++ ("Member since: " ++ py_str joined ++ nl)
      else result in
    let result := result ++ (nl ++ "## Links" ++ nl) in
    let result :=
      if truthy twitter then result ++ ("Twitter: @" ++ py_str twitter ++ nl)
      else result in
    let result :=
      if truthy github then result ++ ("GitHub: " ++ py_str github ++ nl)
      else result in
    let result :=
      if truthy website then result ++ ("Website: " ++ py_str website ++ nl)
      else result in
    Ok result.

(** The condition of the list comprehension in [search_articles].  The
    [or] does not look at the description once the title matches. *)
Definition search_matches (query : string) (article : json) : outcome bool :=
  title <- py_get article "title" (JStr "") ;;
  title_lower <- py_lower title ;;
  if contains (str_lower query) title_lower then Ok true
  else
    description <- py_get article "description" (JStr "") ;;
    description_lower <- py_lower description ;;
    Ok (contains (str_lower query) description_lower).

(** [[article for article in articles if ...]] *)
Definition filtered_articles (query : string) (articles : json)
  : outcome (list json) :=
  items <- py_iter articles ;;
  for_each
    (fun kept article =>
       hit <- search_matches query article ;;
       Ok (if hit then (kept ++ [article])%list else kept))
    items [].

End Formatters.

(* ================================================================== *)
(** * The HTTP peer *)
(* ================================================================== *)

Inductive http_method : Type := GET | POST | PUT.

(** What one call on [httpx.AsyncClient] sends.  A header value is what
    the program passed for it, which for [os.getenv] may be [None].  The
    timeout, ten seconds on every call, is left out. *)
Record request : Type := mkRequest {
  req_method : http_method;
  req_url : string;
  req_params : option (list (string * json));
  req_json : option json;
  req_headers : list (string * option string)
}.

(** The world a handler runs in: the answers the peer will give, in the
    order of the requests (each the result of
    [raise_for_status(); json()]), the process environment, and the
    requests sent so far. *)
Record world : Type := mkWorld {
  responses : list (outcome json);
  environ : list (string * string);
  sent : list request
}.

Definition io (A : Type) : Type := world -> outcome A * world.

Definition io_ret {A} (a : A) : io A := fun w => (Ok a, w).

Definition io_raise {A} (e : exn) : io A := fun w => (Raise e, w).

Definition io_bind {A B} (m : io A) (k : A -> io B) : io B :=
  fun w =>
    match m w with
    | (Ok a, w') => k a w'
    | (Raise e, w') => (Raise e, w')
    end.

(** A pure step of the handler, which may raise. *)
Definition io_lift {A} (m : outcome A) : io A := fun w => (m, w).

(** [try: body  except Exception as e: handler(e)] *)
Definition io_try {A} (body : io A) (handler : exn -> io A) : io A :=
  fun w =>
    match body w with
    | (Ok a, w') => (Ok a, w')
    | (Raise e, w') => handler e w'
    end.

Declare Scope io_scope.
Delimit Scope io_scope with io.
Notation "x <- m ;; k" := (io_bind m (fun x => k))
  (at level 61, m at next level, right associativity) : io_scope.

(** Send a request: it is recorded, and the peer's next answer comes
    back.  A peer with nothing left to say is a transport failure. *)
Definition send (r : request) : io json :=
  fun w =>
    let w' := fun rest =>
      {| responses := rest; environ := environ w; sent := (sent w ++ [r])%list |} in
    match responses w with
    | [] => (Raise RequestError, w' [])
    | answer :: rest => (answer, w' rest)
    end.

(** [os.getenv(name)] *)
Fixpoint env_lookup (name : string) (env : list (string * string)) : option string :=
  match env with
  | [] => None
  | (k, v) :: rest => if String.eqb name k then Some v else env_lookup name rest
  end.

Definition getenv (name : string) : io (option string) :=
  fun w => (Ok (env_lookup name (environ w)), w).

(** The first value a handler returns or the exception that leaves it,
    and the requests it sent. *)
Definition result_of {A} (r : outcome A * world) : outcome A := fst r.
Definition requests_of {A} (r : outcome A * world) : list request := sent (snd r).

(** A peer that answers with the given script, in a process with the
    given environment. *)
Definition peer (script : list (outcome json)) (env : list (string * string)) : world :=
  {| responses := script; environ := env; sent := [] |}.

(* ================================================================== *)
(** * Tool handlers *)
(* ================================================================== *)

Section Handlers.

Context {py : PyBuiltins}.
Local Open Scope io_scope.

Definition BASE_URL : string := "https://dev.to/api".

(** [client.get(url, params=params, timeout=10.0)], then
    [raise_for_status()] and [json()]. *)
Definition fetch_from_api (path : string) (params : option (list (string * json)))
  : io json :=
  send {| req_method := GET;
          req_url := BASE_URL ++ path;
          req_params := params;
          req_json := None;
          req_headers := [] |}.

Definition get_latest_articles : io string :=
  articles <- fetch_from_api "/articles/latest" None ;;
  first_ten <- io_lift (py_slice_to 10 articles) ;;
  io_lift (format_articles first_ten).

Definition get_top_articles : io string :=
  articles <- fetch_from_api "/articles" None ;;
  first_ten <- io_lift (py_slice_to 10 articles) ;;
  io_lift (format_articles first_ten).

Definition get_articles_by_tag (tag : string) : io string :=
  articles <- fetch_from_api "/articles" (Some [("tag", JStr tag)]) ;;
  first_ten <- io_lift (py_slice_to 10 articles) ;;
  io_lift (format_articles first_ten).

Definition get_article_by_id (id : string) : io string :=
  article <- fetch_from_api ("/articles/" ++ id) None ;;
  io_lift (format_article_details article).

Definition search_articles (query : string) (page : Z) : io string :=
  articles <- fetch_from_api "/articles" (Some [("page", JInt page)]) ;;
  filtered <- io_lift (filtered_articles query articles) ;;
  first_ten <- io_lift (py_slice_to 10 (JList filtered)) ;;
  io_lift (format_articles first_ten).

Definition get_article_details (article_id : Z) : io string :=
  article <- fetch_from_api ("/articles/" ++ decimal article_id) None ;;
  io_lift (format_article_details article).

Definition get_articles_by_username (username : string) : io string :=
  articles <- fetch_from_api "/articles" (Some [("username", JStr username)]) ;;
  first_ten <- io_lift (py_slice_to 10 articles) ;;
  io_lift (format_articles first_ten).

(** Only [httpx.HTTPStatusError] is caught, and only a 404 is turned
    into text. *)
Definition get_user_info (username : string) : io string :=
  io_try
    (user <- fetch_from_api ("/users/" ++ username) None ;;
     io_lift (format_user_profile user))
    (fun e =>
       match e with
       | HTTPStatusError status_code =>
           if Z.eqb status_code 404
           then io_ret ("User " ++ username ++ " not found.")
           else io_raise e
       | _ => io_raise e
       end).

(** Every header value is a string. *)
Definition header_values_given (headers : list (string * option string)) : bool :=
  List.forallb
    (fun h => match snd h with Some _ => true | None => false end)
    headers.

(** [client.post(url, json=..., headers=..., timeout=10.0)], then
    [raise_for_status()] and [json()].  httpx builds the headers before
    it sends anything and refuses a value that is [None] with a
    [TypeError]. *)
Definition client_post (r : request) : io json :=
  if header_values_given (req_headers r) then send r else io_raise TypeError.

Definition create_article (title body_markdown tags : string) (published : bool)
  : io string :=
  let article_data :=
    JObj [("article",
           JObj [("title", JStr title);
                 ("body_markdown", JStr body_markdown);
                 ("published", JBool published);
                 ("tags", JStr tags)])] in
  api_key <- getenv "DEV_TO_API_KEY" ;;
  article <- client_post
               {| req_method := POST;
                     req_url := BASE_URL ++ "/articles";
                     req_params := None;
                     req_json := Some article_data;
                     req_headers := [("Content-Type", Some "application/json");
                                     ("api-key", api_key)] |} ;;
  id <- io_lift (py_get article "id" JNull) ;;
  url <- io_lift (py_get article "url" JNull) ;;
  io_ret ("Article created successfully with ID: " ++ py_str id ++ nl
          ++ "URL: " ++ py_str url).

(** [if value is not None: fields[key] = value] *)
Definition set_if_given (key : string) (value : option json)
  (fields : list (string * json)) : list (string * json) :=
  match value with
  | Some v => Dict.set key v fields
  | None => fields
  end.

(** The inner dictionary [update_data["article"]] after the four tests. *)
Definition update_fields (title body_markdown tags : option string)
  (published : option bool) : list (string * json) :=
  let fields := [] in
  let fields := set_if_given "title" (option_map JStr title) fields in
  let fields := set_if_given "body_markdown" (option_map JStr body_markdown) fields in
  let fields := set_if_given "tags" (option_map JStr tags) fields in
  let fields := set_if_given "published" (option_map JBool published) fields in
  fields.

Definition update_article (article_id : Z) (title body_markdown tags : option string)
  (published : option bool) : io string :=
  article <- fetch_from_api ("/articles/" ++ decimal article_id) None ;;
  let update_data :=
    JObj [("article", JObj (update_fields title body_markdown tags published))] in
  updated_article <- send {| req_method := PUT;
                             req_url := BASE_URL ++ "/articles/" ++ decimal article_id;
                             req_params := None;
                             req_json := Some update_data;
                             req_headers := [] |} ;;
  url <- io_lift (py_get updated_article "url" JNull) ;;
  io_ret ("Article updated successfully" ++ nl ++ "URL: " ++ py_str url).

End Handlers.

(* ================================================================== *)
(** * Vocabulary of the specification *)
(* ================================================================== *)

Section Vocabulary.

Context {py : PyBuiltins}.

(** The item under [key], or [default] when the object has none. *)
Definition get_or (d : list (string * json)) (key : string) (default : json) : json :=
  match Dict.lookup key d with
  | Some v => v
  | None => default
  end.

(** The item under [key] is there and Python takes it for true. *)
Definition field_truthy (d : list (string * json)) (key : string) : bool :=
  match Dict.lookup key d with
  | Some v => truthy v
  | None => false
  end.

(** The item under [key], when there is one, is a string. *)
Definition str_or_missing (d : list (string * json)) (key : string) : bool :=
  match Dict.lookup key d with
  | None | Some (JStr _) => true
  | Some _ => false
  end.

(** The item under [key], when there is one, is an object. *)
Definition obj_or_missing (d : list (string * json)) (key : string) : bool :=
  match Dict.lookup key d with
  | None | Some (JObj _) => true
  | Some _ => false
  end.

(** An article as the article endpoints describe it, with any items
    left out: an object whose ["user"], if given, is an object. *)
Definition article_ok (a : json) : bool :=
  match a with
  | JObj d => obj_or_missing d "user"
  | _ => false
  end.

(** The same, with a ["body_markdown"] that is a string if given. *)
Definition article_details_ok (a : json) : bool :=
  match a with
  | JObj d => obj_or_missing d "user" && str_or_missing d "body_markdown"
  | _ => false
  end.

(** An article whose title and description, if given, are strings. *)
Definition article_searchable (a : json) : bool :=
  match a with
  | JObj d => str_or_missing d "title" && str_or_missing d "description"
  | _ => false
  end.

(** An article whose title, if given, is a string. *)
Definition article_titled (a : json) : bool :=
  match a with
  | JObj d => str_or_missing d "title"
  | _ => false
  end.

(** The author's name of an article object whose ["user"], if given,
    is an object. *)
Definition author_of (d : list (string * json)) : json :=
  match Dict.lookup "user" d with
  | Some (JObj u) => get_or u "name" (JStr "Unknown Author")
  | _ => JStr "Unknown Author"
  end.

(** The six texts [format_articles] splices into an article's entry. *)
Definition article_texts (a : json) : list string :=
  match a with
  | JObj d =>
      [ py_str (get_or d "title" (JStr "Untitled"));
        py_str (get_or d "id" (JStr ""));
        py_str (author_of d);
        py_str (get_or d "readable_publish_date" (JStr "Unknown date"));
        py_str (get_or d "tags" (JStr ""));
        py_str (get_or d "description" (JStr "No description available.")) ]
  | _ => []
  end.

(** The entry of one article, line by line, as the specification lists
    it: the heading, then ID, Author, Published, Tags, Description, and
    an empty line. *)
Definition article_entry_lines (a : json) : list string :=
  match a with
  | JObj d =>
      [ "## " ++ py_str (get_or d "title" (JStr "Untitled"));
        "ID: " ++ py_str (get_or d "id" (JStr ""));
        "Author: " ++ py_str (author_of d);
        "Published: " ++ py_str (get_or d "readable_publish_date" (JStr "Unknown date"));
        "Tags: " ++ py_str (get_or d "tags" (JStr ""));
        "Description: "
          ++ py_str (get_or d "description" (JStr "No description available."));
        "" ]
  | _ => []
  end.

Definition article_block (a : json) : string :=
  render_lines (article_entry_lines a).

(** Lines starting with ["## "] that the spliced texts of the articles
    open by themselves, through line feeds inside a title, a
    description and so on. *)
Definition embedded_headings (articles : list json) : nat :=
  List.list_sum
    (List.map (fun a => List.list_sum (List.map (inner_lines_starting "## ") (article_texts a)))
       articles).

(** No spliced text of the article contains a line feed. *)
Definition article_single_line (a : json) : bool :=
  List.forallb single_line (article_texts a).

(** The title or the description of the article, or the empty string
    when the article has none. *)
Definition text_field (a : json) (key : string) : string :=
  match a with
  | JObj d =>
      match Dict.lookup key d with
      | Some (JStr s) => s
      | _ => ""
      end
  | _ => ""
  end.

(** The title or the description contains the query, letter case
    aside. *)
Definition mentions (query : string) (a : json) : Prop :=
  is_substring (str_lower query) (str_lower (text_field a "title"))
  \/ is_substring (str_lower query) (str_lower (text_field a "description")).

(** The optional items a profile shows when Python takes them for true,
    with the label of their line. *)
Definition profile_optional_lines : list (string * string) :=
  [ ("Location:", "location");
    ("Member since:", "joined_at");
    ("Twitter:", "twitter_username");
    ("GitHub:", "github_username");
    ("Website:", "website_url") ].

(** The texts [format_user_profile] splices into a profile. *)
Definition profile_texts (d : list (string * json)) : list string :=
  let shown key :=
    if field_truthy d key then [py_str (get_or d key (JStr ""))] else [] in
  List.concat
    [ [ py_str (get_or d "name" (JStr "Unknown"));
        py_str (get_or d "username" (JStr "Unknown"));
        py_str (get_or d "summary" (JStr "No bio available.")) ];
      shown "location"; shown "joined_at"; shown "twitter_username";
      shown "github_username"; shown "website_url" ].

(** The profile, line by line. *)
Definition profile_lines (d : list (string * json)) : list string :=
  let shown label key :=
    if field_truthy d key then [label ++ py_str (get_or d key (JStr ""))] else [] in
  List.concat
    [ [ "# " ++ py_str (get_or d "name" (JStr "Unknown"))
          ++ " (@" ++ py_str (get_or d "username" (JStr "Unknown")) ++ ")";
        "";
        "Bio: " ++ py_str (get_or d "summary" (JStr "No bio available."));
        "";
        "## Details" ];
      shown "Location: " "location";
      shown "Member since: " "joined_at";
      [ ""; "## Links" ];
      shown "Twitter: @" "twitter_username";
      shown "GitHub: " "github_username";
      shown "Website: " "website_url" ].

(** The defaults of [format_articles], as items to add to an article. *)
Definition article_defaults : list (string * json) :=
  [ ("title", JStr "Untitled");
    ("user", JObj [("name", JStr "Unknown Author")]);
    ("readable_publish_date", JStr "Unknown date");
    ("id", JStr "");
    ("tags", JStr "");
    ("description", JStr "No description available.") ].

(** The defaults of [format_article_details]. *)
Definition article_details_defaults : list (string * json) :=
  [ ("title", JStr "Untitled");
    ("user", JObj [("name", JStr "Unknown Author")]);
    ("readable_publish_date", JStr "Unknown date");
    ("body_markdown", JStr "No content available.");
    ("tags", JStr "") ].

(** The defaults of [format_user_profile]. *)
Definition profile_defaults : list (string * json) :=
  [ ("username", JStr "Unknown");
    ("name", JStr "Unknown");
    ("summary", JStr "No bio available.");
    ("twitter_username", JStr "");
    ("github_username", JStr "");
    ("website_url", JStr "");
    ("location", JStr "");
    ("joined_at", JStr "") ].

(** What the caller of [update_article] supplied under each name. *)
Definition supplied (title body_markdown tags : option string)
  (published : option bool) (key : string) : option json :=
  if String.eqb key "title" then option_map JStr title
  else if String.eqb key "body_markdown" then option_map JStr body_markdown
  else if String.eqb key "tags" then option_map JStr tags
  else if String.eqb key "published" then option_map JBool published
  else None.

End Vocabulary.

(** [selection P xs ys]: [ys] is [xs] with exactly the elements
    satisfying [P] kept, in their order. *)
Inductive selection {A} (P : A -> Prop) : list A -> list A -> Prop :=
| selection_nil : selection P [] []
| selection_keep x xs ys : P x -> selection P xs ys -> selection P (x :: xs) (x :: ys)
| selection_drop x xs ys : ~ P x -> selection P xs ys -> selection P (x :: xs) ys.

(* ================================================================== *)
(** * Sample data *)
(* ================================================================== *)

Definition sample_article : json :=
  JObj [ ("id", JInt 42);
         ("title", JStr "Hello Python");
         ("user", JObj [("name", JStr "Ann")]);
         ("readable_publish_date", JStr "Nov 3");
         ("tags", JStr "intro, python");
         ("description", JStr "First post") ].

(** An article with nothing but its identifier. *)
Definition sparse_article : json := JObj [("id", JInt 7)].

(** An article whose description runs over two lines, the second of
    which reads like a heading. *)
Definition two_line_article : json :=
  JObj [ ("title", JStr "Notes");
         ("description", JStr ("intro" ++ nl ++ "## more")) ].

(** An article whose author is sent as [null]. *)
Definition anonymous_article : json :=
  JObj [ ("title", JStr "Notes"); ("user", JNull) ].

(** An article whose body is sent as [null]. *)
Definition bodyless_article : json :=
  JObj [ ("title", JStr "Notes"); ("body_markdown", JNull) ].

Definition sample_user : list (string * json) :=
  [ ("username", JStr "ann");
    ("name", JStr "Ann");
    ("location", JStr "Mars");
    ("github_username", JStr "") ].

(** A user whose bio has a second line that reads like a location. *)
Definition two_line_bio_user : list (string * json) :=
  [ ("username", JStr "ann");
    ("summary", JStr ("hi" ++ nl ++ "Location: Mars")) ].

(* ================================================================== *)
(** * Tables of the tools *)
(* ================================================================== *)

Section Tools.

Context {py : PyBuiltins}.

(** The GET that [fetch_from_api path params] sends. *)
Definition get_request (path : string) (params : option (list (string * json)))
  : request :=
  {| req_method := GET;
     req_url := BASE_URL ++ path;
     req_params := params;
     req_json := None;
     req_headers := [] |}.

(** The tools that hand the first ten entries of the answer to
    [format_articles]. *)
Definition listing_tools (tag username : string) : list (io string) :=
  [ get_latest_articles; get_top_articles;
    get_articles_by_tag tag; get_articles_by_username username ].

(** The eight tools that only read, each with the request it is written
    to send. *)
Definition read_tools (tag username id query : string) (article_id page : Z)
  : list (io string * request) :=
  [ (get_latest_articles, get_request "/articles/latest" None);
    (get_top_articles, get_request "/articles" None);
    (get_articles_by_tag tag, get_request "/articles" (Some [("tag", JStr tag)]));
    (get_article_by_id id, get_request ("/articles/" ++ id) None);
    (search_articles query page, get_request "/articles" (Some [("page", JInt page)]));
    (get_article_details article_id,
     get_request ("/articles/" ++ decimal article_id) None);
    (get_articles_by_username username,
     get_request "/articles" (Some [("username", JStr username)]));
    (get_user_info username, get_request ("/users/" ++ username) None) ].

(** The two tools that write. *)
Definition write_tools (title body_markdown tags : string) (published : bool)
  (article_id : Z) (new_title new_body new_tags : option string)
  (new_published : option bool) : list (io string) :=
  [ create_article title body_markdown tags published;
    update_article article_id new_title new_body new_tags new_published ].

(** The lines [format_article_details] writes before the body. *)
Definition details_preamble (d : list (string * json)) : list string :=
  [ "# " ++ py_str (get_or d "title" (JStr "Untitled"));
    "";
    "Author: " ++ py_str (author_of d);
    "Published: " ++ py_str (get_or d "readable_publish_date" (JStr "Unknown date"));
    "Tags: " ++ py_str (get_or d "tags" (JStr ""));
    "";
    "## Content";
    "" ].

(** The four texts spliced into those lines. *)
Definition details_texts (d : list (string * json)) : list string :=
  [ py_str (get_or d "title" (JStr "Untitled"));
    py_str (author_of d);
    py_str (get_or d "readable_publish_date" (JStr "Unknown date"));
    py_str (get_or d "tags" (JStr "")) ].

(** The line [format_articles] shows for an item that is missing. *)
Definition article_default_lines : list (string * string) :=
  [ ("title", "## Untitled");
    ("readable_publish_date", "Published: Unknown date");
    ("id", "ID: ");
    ("tags", "Tags: ");
    ("description", "Description: No description available.") ].

(** The line [format_article_details] shows for an item that is
    missing. *)
Definition article_details_default_lines : list (string * string) :=
  [ ("title", "# Untitled");
    ("readable_publish_date", "Published: Unknown date");
    ("tags", "Tags: ");
    ("body_markdown", "No content available.") ].

(** The article names no author: it has no ["user"], or a ["user"]
    object without ["name"]. *)
Definition author_missing (d : list (string * json)) : bool :=
  match Dict.lookup "user" d with
  | None => true
  | Some (JObj u) => match Dict.lookup "name" u with None => true | Some _ => false end
  | Some _ => false
  end.

(** The item under [key] is given and is not a string. *)
Definition not_a_string (d : list (string * json)) (key : string) : bool :=
  negb (str_or_missing d key).

End Tools.

(** ** More sample data *)

(** An article with a body of two lines. *)
Definition sample_post : list (string * json) :=
  [ ("id", JInt 42);
    ("title", JStr "Hello Python");
    ("user", JObj [("name", JStr "Ann")]);
    ("body_markdown", JStr ("First line" ++ nl ++ "Second line")) ].

(** A user whose bio is sent as [null]. *)
Definition no_bio_user : list (string * json) :=
  [ ("username", JStr "ann"); ("summary", JNull) ].

(** An article whose title matches ["py"] and whose description is
    sent as [null]. *)
Definition undescribed_article : list (string * json) :=
  [ ("title", JStr "Python"); ("description", JNull) ].

(* ================================================================== *)
(** * Facts about text *)
(* ================================================================== *)

Lemma append_assoc (a b c : string) : (a ++ b) ++ c = a ++ (b ++ c).
Proof. induction a as [|x a IH]; simpl; [reflexivity | now rewrite IH]. Qed.

Lemma append_empty_r (a : string) : a ++ "" = a.
Proof. induction a as [|x a IH]; simpl; [reflexivity | now rewrite IH]. Qed.

Lemma prefix_empty (s : string) : String.prefix "" s = true.
Proof. destruct s; reflexivity. Qed.

Lemma prefix_cons (a b : ascii) (p s : string) :
  String.prefix (String a p) (String b s) = Ascii.eqb a b && String.prefix p s.
Proof.
  simpl. destruct (ascii_dec a b) as [->|ne].
  - now rewrite Ascii.eqb_refl.
  - apply Ascii.eqb_neq in ne. now rewrite ne.
Qed.

(** Decide whether a text with a literal beginning starts with a
    literal label. *)
Ltac decide_prefix :=
  cbn [String.append];
  repeat rewrite prefix_cons;
  repeat rewrite prefix_empty;
  cbn [Ascii.eqb Bool.eqb andb String.prefix].

Lemma prefix_append (p s : string) : String.prefix p (p ++ s) = true.
Proof.
  induction p as [|x p IH]; simpl.
  - apply prefix_empty.
  - destruct (ascii_dec x x) as [_|ne]; [exact IH | now elim ne].
Qed.

Lemma prefix_split (p s : string) :
  String.prefix p s = true -> exists rest, s = p ++ rest.
Proof.
  revert s; induction p as [|x p IH]; intros s H.
  - exists s; reflexivity.
  - destruct s as [|y s]; simpl in H; [discriminate|].
    destruct (ascii_dec x y) as [->|]; [|discriminate].
    destruct (IH _ H) as [rest ->]. exists rest; reflexivity.
Qed.

Lemma contains_unfold (sub s : string) :
  contains sub s =
  if String.prefix sub s then true
  else match s with
       | EmptyString => false
       | String _ s' => contains sub s'
       end.
Proof. destruct s; reflexivity. Qed.

Lemma contains_empty (s : string) : contains "" s = true.
Proof. rewrite contains_unfold, prefix_empty; reflexivity. Qed.

(** Python's [in] is the substring relation of the specification. *)
Lemma contains_spec (sub s : string) :
  contains sub s = true <-> is_substring sub s.
Proof.
  split.
  - induction s as [|c s IH]; rewrite contains_unfold;
      destruct (String.prefix sub _) eqn:Hp; intros H.
    + destruct (prefix_split _ _ Hp) as [rest E]. now exists "", rest.
    + discriminate.
    + destruct (prefix_split _ _ Hp) as [rest E]. now exists "", rest.
    + destruct (IH H) as (b & a & ->). now exists (String c b), a.
  - intros (b & a & ->). induction b as [|c b IH]; simpl String.append.
    + rewrite contains_unfold, prefix_append; reflexivity.
    + rewrite contains_unfold. destruct (String.prefix sub _); [reflexivity | exact IH].
Qed.

Lemma lines_cons (s : string) : exists l ls, lines s = l :: ls.
Proof.
  induction s as [|c s (l & ls & E)]; simpl; [now eauto|].
  destruct (Ascii.eqb c LF); [now eauto|]. rewrite E. now eauto.
Qed.

Lemma lines_single (s : string) : single_line s = true -> lines s = [s].
Proof.
  induction s as [|c s IH]; simpl; [reflexivity|].
  destruct (Ascii.eqb c LF); simpl; [discriminate|].
  intros H. now rewrite (IH H).
Qed.

(** Cutting at a line feed cuts the list of lines. *)
Lemma lines_append_nl (a b : string) :
  lines (a ++ nl ++ b) = (lines a ++ lines b)%list.
Proof.
  change (nl ++ b) with (String LF b).
  induction a as [|c a IH]; simpl; [reflexivity|].
  rewrite IH. destruct (Ascii.eqb c LF); [reflexivity|].
  destruct (lines_cons a) as (l & ls & ->). reflexivity.
Qed.

(** A label without line feed stays on the first line of what follows. *)
Lemma lines_label (p s : string) :
  single_line p = true ->
  lines (p ++ s) = (p ++ first_line s) :: List.tl (lines s).
Proof.
  unfold first_line. induction p as [|c p IH]; simpl.
  - intros _. destruct (lines_cons s) as (l & ls & ->). reflexivity.
  - destruct (Ascii.eqb c LF); simpl; [discriminate|].
    intros H. now rewrite (IH H).
Qed.

Lemma lines_render (bodies : list string) :
  lines (render_lines bodies) = (List.flat_map lines bodies ++ [""])%list.
Proof.
  unfold render_lines. induction bodies as [|b bodies IH]; simpl; [reflexivity|].
  rewrite append_assoc, lines_append_nl, IH. now rewrite List.app_assoc.
Qed.

Lemma lines_render_then (bodies : list string) (s : string) :
  lines (render_lines bodies ++ s) = (List.flat_map lines bodies ++ lines s)%list.
Proof.
  unfold render_lines. induction bodies as [|b bodies IH]; simpl; [reflexivity|].
  rewrite !append_assoc, lines_append_nl, IH. now rewrite List.app_assoc.
Qed.

Lemma flat_map_lines_single (bodies : list string) :
  List.forallb single_line bodies = true -> List.flat_map lines bodies = bodies.
Proof.
  induction bodies as [|b bodies IH]; simpl; [reflexivity|].
  intros [Hb Hr]%andb_prop. now rewrite (lines_single _ Hb), (IH Hr).
Qed.

Lemma render_lines_app (xs ys : list string) :
  render_lines (xs ++ ys) = render_lines xs ++ render_lines ys.
Proof.
  unfold render_lines. induction xs as [|x xs IH]; simpl; [reflexivity|].
  now rewrite IH, !append_assoc.
Qed.

Lemma count_prefixed_app (p : string) (xs ys : list string) :
  count_prefixed p (xs ++ ys) = count_prefixed p xs + count_prefixed p ys.
Proof.
  unfold count_prefixed. now rewrite List.filter_app, List.length_app.
Qed.

Lemma count_prefixed_cons (p x : string) (xs : list string) :
  count_prefixed p (x :: xs) =
  (if String.prefix p x then 1 else 0) + count_prefixed p xs.
Proof. unfold count_prefixed; simpl. now destruct (String.prefix p x). Qed.

(** The lines of a labelled text that start with [q]: the first line
    if the label makes it so, and those the text opens by itself. *)
Lemma lines_starting_label (q p s : string) :
  single_line p = true ->
  lines_starting q (p ++ s) =
  (if String.prefix q (p ++ first_line s) then 1 else 0) + inner_lines_starting q s.
Proof.
  intros H. unfold lines_starting, inner_lines_starting.
  now rewrite (lines_label _ _ H), count_prefixed_cons.
Qed.

Lemma inner_lines_single (q s : string) :
  single_line s = true -> inner_lines_starting q s = 0.
Proof.
  intros H. unfold inner_lines_starting. now rewrite (lines_single _ H).
Qed.

Lemma lines_starting_render (q : string) (bodies : list string) :
  lines_starting q (render_lines bodies)
  = List.list_sum (List.map (lines_starting q) bodies)
    + (if String.prefix q "" then 1 else 0).
Proof.
  unfold lines_starting. rewrite lines_render, count_prefixed_app.
  rewrite count_prefixed_cons. unfold count_prefixed at 3. simpl. rewrite Nat.add_0_r.
  f_equal. induction bodies as [|b bodies IH]; simpl; [reflexivity|].
  now rewrite count_prefixed_app, IH.
Qed.

(* ================================================================== *)
(** * Facts about dictionaries and the monads *)
(* ================================================================== *)

Lemma lookup_set (k k' : string) (v : json) (d : list (string * json)) :
  Dict.lookup k' (Dict.set k v d) =
  if String.eqb k' k then Some v else Dict.lookup k' d.
Proof.
  induction d as [|[k0 v0] d IH]; simpl.
  - reflexivity.
  - destruct (String.eqb_spec k k0) as [->|Hk]; simpl.
    + now destruct (String.eqb k' k0).
    + rewrite IH. destruct (String.eqb_spec k' k0) as [->|]; [|reflexivity].
      destruct (String.eqb_spec k0 k) as [->|]; [now elim Hk | reflexivity].
Qed.

Lemma set_not_empty (k : string) (v : json) (d : list (string * json)) :
  Dict.set k v d <> [].
Proof. destruct d as [|[k0 v0] d]; simpl; [|destruct (String.eqb k k0)]; discriminate. Qed.

Lemma for_each_app {S A} (body : S -> A -> outcome S) (xs ys : list A) (acc : S) :
  for_each body (xs ++ ys) acc = bind (for_each body xs acc) (for_each body ys).
Proof.
  revert acc; induction xs as [|x xs IH]; intros acc; simpl; [reflexivity|].
  destruct (body acc x); simpl; [apply IH | reflexivity].
Qed.

(* ================================================================== *)
(** * Facts about the formatters *)
(* ================================================================== *)

(** Bring a chain of concatenations into right-nested form. *)
Ltac flatten_text :=
  unfold render_lines, articles_header, nl; simpl List.map; simpl cat;
  repeat first [ rewrite append_assoc
               | rewrite append_empty_r
               | progress simpl String.append ].

Section FormatterFacts.

Context {py : PyBuiltins}.

Lemma format_articles_step_ok (result : string) (a : json) :
  article_ok a = true ->
  format_articles_step result a = Ok (result ++ article_block a).
Proof.
  destruct a as [| | | | | |d]; try discriminate.
  unfold article_ok, obj_or_missing, format_articles_step, article_block,
    article_entry_lines, author_of, get_or; simpl.
  destruct (Dict.lookup "user" d) as [[| | | | | |u]|]; try discriminate;
    intros _; simpl; f_equal; flatten_text; reflexivity.
Qed.

Lemma format_articles_loop (l : list json) (result : string) :
  List.forallb article_ok l = true ->
  for_each format_articles_step l result
  = Ok (result ++ cat (List.map article_block l)).
Proof.
  revert result; induction l as [|a l IH]; intros result; simpl.
  - intros _. now rewrite append_empty_r.
  - intros [Ha Hl]%andb_prop. rewrite (format_articles_step_ok _ _ Ha); simpl.
    rewrite (IH _ Hl). now rewrite append_assoc.
Qed.

Lemma cat_article_blocks (l : list json) :
  cat (List.map article_block l) = render_lines (List.flat_map article_entry_lines l).
Proof.
  induction l as [|a l IH]; simpl; [reflexivity|].
  now rewrite render_lines_app, IH.
Qed.

(** The text of a non-empty list of articles, line by line. *)
Lemma format_articles_lines (a : json) (l : list json) :
  List.forallb article_ok (a :: l) = true ->
  format_articles (JList (a :: l))
  = Ok (render_lines
          ("# Dev.to Articles" :: "" :: List.flat_map article_entry_lines (a :: l))).
Proof.
  intros H. unfold format_articles. simpl truthy. simpl negb. cbv iota.
  simpl py_iter. unfold bind at 1. rewrite (format_articles_loop _ _ H).
  rewrite cat_article_blocks.
  change ("# Dev.to Articles" :: "" :: List.flat_map article_entry_lines (a :: l))
    with (["# Dev.to Articles"; ""] ++ List.flat_map article_entry_lines (a :: l))%list.
  now rewrite render_lines_app.
Qed.

Lemma entry_headings (a : json) :
  article_ok a = true ->
  List.list_sum (List.map (lines_starting "## ") (article_entry_lines a))
  = 1 + List.list_sum (List.map (inner_lines_starting "## ") (article_texts a)).
Proof.
  destruct a as [| | | | | |d]; try discriminate. intros _.
  unfold article_entry_lines, article_texts, List.list_sum.
  cbn [List.map List.fold_right].
  rewrite !lines_starting_label by reflexivity.
  rewrite (prefix_append "## ").
  change (lines_starting "## " "") with 0.
  decide_prefix. lia.
Qed.

Lemma headings_of_entries (l : list json) :
  List.forallb article_ok l = true ->
  List.list_sum (List.map (lines_starting "## ") (List.flat_map article_entry_lines l))
  = List.length l + embedded_headings l.
Proof.
  unfold embedded_headings.
  induction l as [|a l IH]; simpl; [reflexivity|].
  intros [Ha Hl]%andb_prop.
  rewrite List.map_app, List.list_sum_app, (entry_headings _ Ha), (IH Hl). lia.
Qed.

Lemma embedded_headings_single (l : list json) :
  List.forallb article_single_line l = true -> embedded_headings l = 0.
Proof.
  unfold embedded_headings, article_single_line.
  induction l as [|a l IH]; simpl; [reflexivity|].
  intros [Ha Hl]%andb_prop. rewrite (IH Hl), Nat.add_0_r.
  induction (article_texts a) as [|t ts IHt]; simpl; [reflexivity|].
  simpl in Ha. apply andb_prop in Ha as [Ht Hts].
  now rewrite (inner_lines_single _ _ Ht), (IHt Hts).
Qed.

(** The number of heading lines [format_articles] produces. *)
Lemma format_articles_headings (l : list json) :
  List.forallb article_ok l = true ->
  exists out,
    format_articles (JList l) = Ok out
    /\ lines_starting "## " out = List.length l + embedded_headings l.
Proof.
  destruct l as [|a l]; intros H.
  - exists "No articles found.". split; reflexivity.
  - eexists. split; [apply (format_articles_lines _ _ H)|].
    rewrite lines_starting_render.
    change (List.map (lines_starting "## ")
              ("# Dev.to Articles" :: "" :: List.flat_map article_entry_lines (a :: l)))
      with (lines_starting "## " "# Dev.to Articles" :: lines_starting "## " ""
              :: List.map (lines_starting "## ") (List.flat_map article_entry_lines (a :: l))).
    cbn [List.list_sum List.fold_right].
    change (List.fold_right Nat.add 0 ?x) with (List.list_sum x).
    rewrite (headings_of_entries _ H).
    change (lines_starting "## " "# Dev.to Articles") with 0.
    change (lines_starting "## " "") with 0.
    change (String.prefix "## " "") with false. cbv iota. lia.
Qed.

End FormatterFacts.

Section MoreFormatterFacts.

Context {py : PyBuiltins}.

Lemma single_line_append (a b : string) :
  single_line (a ++ b) = single_line a && single_line b.
Proof.
  induction a as [|c a IH]; simpl; [reflexivity|].
  now rewrite IH, andb_assoc.
Qed.

Lemma field_truthy_get_or (d : list (string * json)) (key : string) :
  truthy (get_or d key (JStr "")) = field_truthy d key.
Proof. unfold get_or, field_truthy. now destruct (Dict.lookup key d). Qed.

(** The text of a non-empty article object. *)
Lemma format_article_details_text (d : list (string * json)) :
  d <> [] ->
  article_details_ok (JObj d) = true ->
  format_article_details (JObj d)
  = Ok ("# " ++ py_str (get_or d "title" (JStr "Untitled")) ++ nl ++ nl
        ++ "Author: " ++ py_str (author_of d) ++ nl
        ++ "Published: "
        ++ py_str (get_or d "readable_publish_date" (JStr "Unknown date")) ++ nl
        ++ "Tags: " ++ py_str (get_or d "tags" (JStr "")) ++ nl ++ nl
        ++ "## Content" ++ nl ++ nl
        ++ py_str (get_or d "body_markdown" (JStr "No content available."))).
Proof.
  intros Hd.
  assert (Ht : truthy (JObj d) = true) by (destruct d; [now elim Hd | reflexivity]).
  unfold article_details_ok, obj_or_missing, str_or_missing, format_article_details,
    author_of, get_or.
  rewrite Ht. cbn [negb]. cbv iota. simpl py_get.
  destruct (Dict.lookup "user" d) as [[| | | | | |u]|]; try discriminate;
    destruct (Dict.lookup "body_markdown" d) as [[| | | |body| |]|];
    try discriminate; intros _; simpl; f_equal; flatten_text; reflexivity.
Qed.

(** The text of a non-empty user object, line by line. *)
Lemma format_user_profile_lines (d : list (string * json)) :
  d <> [] ->
  format_user_profile (JObj d) = Ok (render_lines (profile_lines d)).
Proof.
  intros Hd.
  assert (Ht : truthy (JObj d) = true) by (destruct d; [now elim Hd | reflexivity]).
  unfold format_user_profile, profile_lines.
  rewrite Ht. cbn [negb]. cbv iota. simpl py_get.
  unfold bind.
  change (match Dict.lookup ?k d with Some x => x | None => ?v end)
    with (get_or d k v).
  rewrite !field_truthy_get_or.
  destruct (field_truthy d "location"), (field_truthy d "joined_at"),
    (field_truthy d "twitter_username"), (field_truthy d "github_username"),
    (field_truthy d "website_url");
    f_equal; simpl List.concat; flatten_text; reflexivity.
Qed.

End MoreFormatterFacts.

Section DefaultsFacts.

Context {py : PyBuiltins}.

Lemma truthy_set (k : string) (v : json) (d : list (string * json)) :
  truthy (JObj (Dict.set k v d)) = true.
Proof.
  pose proof (set_not_empty k v d) as H. simpl.
  destruct (Dict.set k v d); [now elim H | reflexivity].
Qed.

Lemma truthy_obj (d : list (string * json)) : d <> [] -> truthy (JObj d) = true.
Proof. destruct d; [intros H; now elim H | reflexivity]. Qed.

(** Cases on the membership of a pair in a literal table. *)
Ltac each_default H :=
  repeat (destruct H as [H|H]; [inversion H; subst; clear H|]); [..|destruct H].

(** Writing a default of [format_articles] into an article that lacks
    the item changes nothing. *)
Lemma format_articles_step_default (result : string) (d : list (string * json))
  (k : string) (v : json) :
  List.In (k, v) article_defaults ->
  Dict.lookup k d = None ->
  format_articles_step result (JObj (Dict.set k v d))
  = format_articles_step result (JObj d).
Proof.
  intros Hin Hk. unfold article_defaults in Hin. each_default Hin;
    unfold format_articles_step, py_get; rewrite !lookup_set; simpl;
    rewrite Hk; reflexivity.
Qed.

(** The same for the name inside a given ["user"] object. *)
Lemma format_articles_step_default_name (result : string) (d u : list (string * json)) :
  Dict.lookup "user" d = Some (JObj u) ->
  Dict.lookup "name" u = None ->
  format_articles_step result
    (JObj (Dict.set "user" (JObj (Dict.set "name" (JStr "Unknown Author") u)) d))
  = format_articles_step result (JObj d).
Proof.
  intros Hu Hn. unfold format_articles_step, py_get; rewrite !lookup_set; simpl.
  rewrite Hu. simpl. rewrite lookup_set; simpl. rewrite Hn. reflexivity.
Qed.

Lemma format_articles_congr (l1 l2 : list json) (a b : json) :
  (forall result, format_articles_step result a = format_articles_step result b) ->
  format_articles (JList (l1 ++ a :: l2)) = format_articles (JList (l1 ++ b :: l2)).
Proof.
  intros H. unfold format_articles.
  assert (T : forall x, truthy (JList (l1 ++ x :: l2)) = true)
    by (intros x; destruct l1; reflexivity).
  rewrite !T. cbn [negb py_iter bind]. cbv iota.
  rewrite !for_each_app. destruct (for_each format_articles_step l1 articles_header);
    simpl; [|reflexivity].
  now rewrite H.
Qed.

Lemma format_article_details_default (d : list (string * json)) (k : string) (v : json) :
  d <> [] ->
  List.In (k, v) article_details_defaults ->
  Dict.lookup k d = None ->
  format_article_details (JObj (Dict.set k v d)) = format_article_details (JObj d).
Proof.
  intros Hd Hin Hk. unfold format_article_details.
  rewrite truthy_set, (truthy_obj _ Hd). cbn [negb]. cbv iota.
  unfold article_details_defaults in Hin. each_default Hin;
    unfold py_get; rewrite !lookup_set; simpl; rewrite Hk; reflexivity.
Qed.

Lemma format_article_details_default_name (d u : list (string * json)) :
  Dict.lookup "user" d = Some (JObj u) ->
  Dict.lookup "name" u = None ->
  format_article_details
    (JObj (Dict.set "user" (JObj (Dict.set "name" (JStr "Unknown Author") u)) d))
  = format_article_details (JObj d).
Proof.
  intros Hu Hn. unfold format_article_details.
  assert (Hd : d <> []) by (intros ->; discriminate).
  rewrite truthy_set, (truthy_obj _ Hd). cbn [negb]. cbv iota.
  unfold py_get; rewrite !lookup_set; simpl.
  rewrite Hu. simpl. rewrite lookup_set; simpl. rewrite Hn. reflexivity.
Qed.

Lemma format_user_profile_default (d : list (string * json)) (k : string) (v : json) :
  d <> [] ->
  List.In (k, v) profile_defaults ->
  Dict.lookup k d = None ->
  format_user_profile (JObj (Dict.set k v d)) = format_user_profile (JObj d).
Proof.
  intros Hd Hin Hk. unfold format_user_profile.
  rewrite truthy_set, (truthy_obj _ Hd). cbn [negb]. cbv iota.
  unfold profile_defaults in Hin. each_default Hin;
    unfold py_get; rewrite !lookup_set; simpl; rewrite Hk; reflexivity.
Qed.

(** [format_user_profile] returns on every object. *)
Lemma format_user_profile_total (d : list (string * json)) :
  exists out, format_user_profile (JObj d) = Ok out.
Proof.
  destruct d as [|kv d]; [now exists "User not found."|].
  eexists. apply format_user_profile_lines. discriminate.
Qed.

Lemma format_article_details_total (d : list (string * json)) :
  article_details_ok (JObj d) = true ->
  exists out, format_article_details (JObj d) = Ok out.
Proof.
  destruct d as [|kv d]; [now exists "Article not found."|].
  intros H. eexists. apply format_article_details_text; [discriminate | exact H].
Qed.

Lemma format_articles_total (l : list json) :
  List.forallb article_ok l = true ->
  exists out, format_articles (JList l) = Ok out.
Proof.
  intros H. destruct (format_articles_headings l H) as (out & E & _). now exists out.
Qed.

(** A value Python takes for false gives the fixed text. *)
Lemma falsy_sentinels (v : json) :
  truthy v = false ->
  format_articles v = Ok "No articles found."
  /\ format_article_details v = Ok "Article not found."
  /\ format_user_profile v = Ok "User not found.".
Proof.
  intros H. unfold format_articles, format_article_details, format_user_profile.
  rewrite H. now repeat split.
Qed.

End DefaultsFacts.

Section SearchFacts.

Context {py : PyBuiltins}.

Lemma either_contains (q t s : string) :
  exists hit,
    (if contains q t then Ok true else Ok (contains q s)) = Ok hit
    /\ (hit = true <-> is_substring q t \/ is_substring q s).
Proof.
  pose proof (contains_spec q t) as Ht. pose proof (contains_spec q s) as Hs.
  destruct (contains q t), (contains q s); eexists; (split; [reflexivity|]);
    intuition congruence.
Qed.

Lemma search_matches_spec (query : string) (a : json) :
  article_searchable a = true ->
  exists hit, search_matches query a = Ok hit /\ (hit = true <-> mentions query a).
Proof.
  destruct a as [| | | | | |d]; try discriminate.
  unfold article_searchable, str_or_missing, search_matches, mentions, text_field, py_get.
  destruct (Dict.lookup "title" d) as [[| | | |t| |]|]; try discriminate;
    destruct (Dict.lookup "description" d) as [[| | | |s| |]|]; try discriminate;
    intros _; simpl; apply either_contains.
Qed.

Lemma filtered_articles_loop (query : string) (page kept : list json) :
  List.forallb article_searchable page = true ->
  exists more,
    for_each
      (fun kept article =>
         bind (search_matches query article)
           (fun hit => Ok (if hit then (kept ++ [article])%list else kept)))
      page kept
    = Ok (kept ++ more)%list
    /\ selection (mentions query) page more.
Proof.
  revert kept; induction page as [|a page IH]; intros kept; simpl.
  - intros _. exists []. rewrite List.app_nil_r. split; [reflexivity | constructor].
  - intros [Ha Hp]%andb_prop.
    destruct (search_matches_spec query a Ha) as (hit & -> & Hhit). simpl.
    destruct hit.
    + destruct (IH (kept ++ [a])%list Hp) as (more & -> & Hsel).
      exists (a :: more). rewrite <- List.app_assoc. split; [reflexivity|].
      constructor; [now apply Hhit | exact Hsel].
    + destruct (IH kept Hp) as (more & -> & Hsel).
      exists more. split; [reflexivity|].
      apply selection_drop; [|exact Hsel].
      intros Hm. apply Hhit in Hm. discriminate.
Qed.

(** With the empty query every article with a string title is kept. *)
Lemma search_matches_empty_query (a : json) :
  str_lower "" = "" ->
  article_titled a = true ->
  search_matches "" a = Ok true.
Proof.
  intros Hlow. destruct a as [| | | | | |d]; try discriminate.
  unfold article_titled, str_or_missing, search_matches, py_get.
  rewrite Hlow.
  destruct (Dict.lookup "title" d) as [[| | | |t| |]|]; try discriminate;
    intros _; simpl; now rewrite contains_empty.
Qed.

Lemma filtered_articles_empty_query (page kept : list json) :
  str_lower "" = "" ->
  List.forallb article_titled page = true ->
  for_each
    (fun kept article =>
       bind (search_matches "" article)
         (fun hit => Ok (if hit then (kept ++ [article])%list else kept)))
    page kept
  = Ok (kept ++ page)%list.
Proof.
  intros Hlow. revert kept; induction page as [|a page IH]; intros kept; simpl.
  - intros _. now rewrite List.app_nil_r.
  - intros [Ha Hp]%andb_prop.
    rewrite (search_matches_empty_query a Hlow Ha). simpl.
    rewrite (IH _ Hp). now rewrite <- List.app_assoc.
Qed.

End SearchFacts.

(** A selection is determined by the list and the property, keeps the
    order, and holds exactly the elements with the property. *)
Lemma selection_unique {A} (P : A -> Prop) (xs ys zs : list A) :
  selection P xs ys -> selection P xs zs -> ys = zs.
Proof.
  intros H; revert zs; induction H; intros zs Hz; inversion Hz; subst;
    try reflexivity; try contradiction.
  - f_equal. now apply IHselection.
  - now apply IHselection.
Qed.

Lemma selection_In {A} (P : A -> Prop) (xs ys : list A) :
  selection P xs ys -> forall x, List.In x ys -> List.In x xs /\ P x.
Proof.
  induction 1; intros y Hy; simpl in *.
  - destruct Hy.
  - destruct Hy as [<-|Hy]; [now auto|]. destruct (IHselection _ Hy). now auto.
  - destruct (IHselection _ Hy). now auto.
Qed.

(* ================================================================== *)
(** * Facts about the handlers *)
(* ================================================================== *)

Lemma forallb_firstn {A} (f : A -> bool) (n : nat) (l : list A) :
  List.forallb f l = true -> List.forallb f (List.firstn n l) = true.
Proof.
  revert n; induction l as [|x l IH]; intros [|n]; simpl; try reflexivity.
  intros [Hx Hl]%andb_prop. now rewrite Hx, (IH n Hl).
Qed.

(** Run a handler on a world whose next answers are known. *)
Ltac run_io H :=
  unfold result_of, requests_of, io_try, io_bind, io_lift, io_ret, io_raise,
    getenv, fetch_from_api, send;
  rewrite ?H; cbn [fst snd sent responses environ].

Section HandlerFacts.

Context {py : PyBuiltins}.

(** The four listing tools format the first ten entries of the answer. *)
Lemma listing_tools_result (l : list json) (w : world) (rest : list (outcome json))
  (tag username : string) (handler : io string) :
  responses w = Ok (JList l) :: rest ->
  List.In handler [ get_latest_articles; get_top_articles;
                    get_articles_by_tag tag; get_articles_by_username username ] ->
  result_of (handler w) = format_articles (JList (List.firstn 10 l)).
Proof.
  intros Hw Hin.
  repeat (destruct Hin as [<-|Hin]; [|]); [..|destruct Hin];
    unfold get_latest_articles, get_top_articles, get_articles_by_tag,
      get_articles_by_username; run_io Hw; reflexivity.
Qed.

End HandlerFacts.

(* ================================================================== *)
(** * The properties of the specification *)
(* ================================================================== *)

Section Properties.

Context {py : PyBuiltins}.

(** C1 (as amended).  A listing tool formats the first ten entries of
    the fetched list.  Its text has one line starting with ["## "] for
    each of them, and besides those only the ones that line feeds inside
    the spliced texts open; when no spliced text contains a line feed,
    the text has exactly [min 10 n] such lines for a list of [n]
    articles. *)
Theorem article_list_heading_count
  (l : list json) (w : world) (rest : list (outcome json))
  (tag username : string) (handler : io string) :
  responses w = Ok (JList l) :: rest ->
  List.forallb article_ok l = true ->
  List.In handler [ get_latest_articles; get_top_articles;
                    get_articles_by_tag tag; get_articles_by_username username ] ->
  exists out,
    result_of (handler w) = Ok out
    /\ result_of (handler w) = format_articles (JList (List.firstn 10 l))
    /\ lines_starting "## " out
       = Nat.min 10 (List.length l) + embedded_headings (List.firstn 10 l)
    /\ (List.forallb article_single_line (List.firstn 10 l) = true ->
        lines_starting "## " out = Nat.min 10 (List.length l)).
Proof.
  intros Hw Hok Hin.
  pose proof (listing_tools_result l w rest tag username handler Hw Hin) as E.
  destruct (format_articles_headings _ (forallb_firstn _ 10 _ Hok)) as (out & Hout & Hn).
  rewrite List.length_firstn in Hn.
  exists out. repeat split.
  - now rewrite E.
  - exact E.
  - exact Hn.
  - intros Hs. rewrite Hn, (embedded_headings_single _ Hs). lia.
Qed.

(** C3.  When the fetch of the user fails with an HTTP status error,
    [get_user_info] returns the text ["User <username> not found."] for
    status 404 and lets the error through for every other status. *)
Theorem get_user_info_status_error
  (username : string) (w : world) (code : Z) (rest : list (outcome json)) :
  responses w = Raise (HTTPStatusError code) :: rest ->
  (code = 404%Z ->
   result_of (get_user_info username w) = Ok ("User " ++ username ++ " not found."))
  /\ (code <> 404%Z ->
      result_of (get_user_info username w) = Raise (HTTPStatusError code)).
Proof.
  intros Hw. unfold get_user_info. run_io Hw. split.
  - intros ->. reflexivity.
  - intros Hc. apply Z.eqb_neq in Hc. now rewrite Hc.
Qed.

(** C4 (as amended).  For a non-empty list of articles, the text of
    [get_top_articles] is the header ["# Dev.to Articles\n\n"] followed
    by one block for each of the first ten articles, at least one and
    at most ten; a block is the heading line ["## <title>"] and the
    lines ID, Author, Published, Tags, Description in that order, closed
    by an empty line. *)
Theorem get_top_articles_blocks
  (a : json) (l : list json) (w : world) (rest : list (outcome json)) :
  responses w = Ok (JList (a :: l)) :: rest ->
  List.forallb article_ok (a :: l) = true ->
  let shown := List.firstn 10 (a :: l) in
  result_of (get_top_articles w)
  = Ok (articles_header ++ cat (List.map article_block shown))
  /\ 1 <= List.length shown <= 10
  /\ forall d,
       article_block (JObj d)
       = "## " ++ py_str (get_or d "title" (JStr "Untitled")) ++ nl
         ++ "ID: " ++ py_str (get_or d "id" (JStr "")) ++ nl
         ++ "Author: " ++ py_str (author_of d) ++ nl
         ++ "Published: "
         ++ py_str (get_or d "readable_publish_date" (JStr "Unknown date")) ++ nl
         ++ "Tags: " ++ py_str (get_or d "tags" (JStr "")) ++ nl
         ++ "Description: "
         ++ py_str (get_or d "description" (JStr "No description available.")) ++ nl
         ++ nl.
Proof.
  intros Hw Hok shown. repeat split.
  - unfold get_top_articles. run_io Hw. simpl py_slice_to. fold shown.
    assert (Hs : List.forallb article_ok shown = true) by now apply forallb_firstn.
    unfold format_articles. subst shown. simpl List.firstn in *.
    cbn [truthy negb py_iter bind]. cbv iota.
    now rewrite (format_articles_loop _ _ Hs).
  - subst shown. simpl. lia.
  - subst shown. apply List.firstn_le_length.
  - intros d. unfold article_block, article_entry_lines. flatten_text. reflexivity.
Qed.


(** C9.  With the empty query the test of [search_articles] holds for
    every article whose title, if it has one, is a string, also when it
    has neither title nor description; the tool then returns the format
    of the first ten articles of the page. *)
Theorem search_articles_empty_query
  (page_number : Z) (page : list json) (w : world) (rest : list (outcome json)) :
  str_lower "" = "" ->
  responses w = Ok (JList page) :: rest ->
  List.forallb article_titled page = true ->
  (forall a, List.In a page -> search_matches "" a = Ok true)
  /\ filtered_articles "" (JList page) = Ok page
  /\ result_of (search_articles "" page_number w)
     = format_articles (JList (List.firstn 10 page)).
Proof.
  intros Hlow Hw Hp.
  assert (F : filtered_articles "" (JList page) = Ok page)
    by exact (filtered_articles_empty_query page [] Hlow Hp).
  repeat split.
  - intros a Ha. apply search_matches_empty_query; [exact Hlow|].
    rewrite List.forallb_forall in Hp. now apply Hp.
  - exact F.
  - unfold search_articles. run_io Hw. rewrite F. reflexivity.
Qed.

End Properties.

Section DefaultLines.

Context {py : PyBuiltins}.

Lemma line_in_rendered (line : string) (bodies : list string) (s : string) :
  List.In line bodies -> single_line line = true ->
  List.In line (lines (render_lines bodies ++ s)).
Proof.
  intros Hin Hs. rewrite lines_render_then. apply List.in_or_app. left.
  apply List.in_flat_map. exists line. split; [exact Hin|].
  rewrite (lines_single _ Hs). now left.
Qed.

(** A line of the entry of an article of the list is a line of the
    text. *)
Lemma format_articles_shows_line (l : list json) (o : list (string * json))
  (line : string) :
  List.forallb article_ok l = true ->
  List.In (JObj o) l ->
  List.In line (article_entry_lines (JObj o)) -> single_line line = true ->
  exists out, format_articles (JList l) = Ok out /\ List.In line (lines out).
Proof.
  intros Hok Ho Hin Hs. destruct l as [|a l]; [destruct Ho|].
  eexists. split; [apply (format_articles_lines _ _ Hok)|].
  rewrite <- (append_empty_r (render_lines _)).
  apply line_in_rendered; [|exact Hs]. do 2 right.
  apply List.in_flat_map. exists (JObj o). now split.
Qed.

Lemma format_article_details_rendered (d : list (string * json)) :
  d <> [] ->
  article_details_ok (JObj d) = true ->
  format_article_details (JObj d)
  = Ok (render_lines (details_preamble d)
        ++ py_str (get_or d "body_markdown" (JStr "No content available."))).
Proof.
  intros Hd Hok. rewrite (format_article_details_text d Hd Hok). f_equal.
  unfold details_preamble. flatten_text. reflexivity.
Qed.

Lemma article_default_line_shown (o : list (string * json)) (key line : string) :
  List.In (key, line) article_default_lines ->
  Dict.lookup key o = None ->
  List.In line (article_entry_lines (JObj o)) /\ single_line line = true.
Proof.
  intros Hin Hk. unfold article_default_lines in Hin.
  repeat (destruct Hin as [Hin|Hin]; [inversion Hin; subst; clear Hin|]);
    [..|destruct Hin];
    (split; [|reflexivity]);
    unfold article_entry_lines, get_or; rewrite Hk; cbn [py_str String.append];
    auto 10 using List.in_eq, List.in_cons.
Qed.

Lemma author_default (o : list (string * json)) :
  author_missing o = true -> py_str (author_of o) = "Unknown Author".
Proof.
  unfold author_missing, author_of, get_or.
  destruct (Dict.lookup "user" o) as [[| | | | | |u]|]; try discriminate;
    [|reflexivity].
  destruct (Dict.lookup "name" u); [discriminate | reflexivity].
Qed.

Lemma details_default_line_shown (d : list (string * json)) (key line : string) :
  List.In (key, line) article_details_default_lines ->
  Dict.lookup key d = None ->
  List.In line
    (lines (render_lines (details_preamble d)
            ++ py_str (get_or d "body_markdown" (JStr "No content available.")))).
Proof.
  intros Hin Hk. unfold article_details_default_lines in Hin.
  repeat (destruct Hin as [Hin|Hin]; [inversion Hin; subst; clear Hin|]);
    [..|destruct Hin].
  1-3: apply line_in_rendered; [|reflexivity];
    unfold details_preamble, get_or; rewrite Hk; cbn [py_str String.append];
    auto 10 using List.in_eq, List.in_cons.
  rewrite lines_render_then. apply List.in_or_app. right.
  unfold get_or. rewrite Hk. now left.
Qed.

Lemma profile_line_shown (u : list (string * json)) (line : string) :
  u <> [] ->
  List.In line (profile_lines u) -> single_line line = true ->
  exists out, format_user_profile (JObj u) = Ok out /\ List.In line (lines out).
Proof.
  intros Hu Hin Hs. eexists. split; [now apply format_user_profile_lines|].
  rewrite <- (append_empty_r (render_lines _)). now apply line_in_rendered.
Qed.

End DefaultLines.

Section MoreProperties.

Context {py : PyBuiltins}.

(** C5.  A formatter given an empty list, an empty object or [None],
    or any other value Python takes for false, returns its fixed text:
    ["No articles found."], ["Article not found."], ["User not found."];
    none of these is the empty text. *)
Theorem formatters_empty_input (v : json) :
  truthy v = false ->
  format_articles v = Ok "No articles found."
  /\ format_article_details v = Ok "Article not found."
  /\ format_user_profile v = Ok "User not found."
  /\ "No articles found." <> "" /\ "Article not found." <> "" /\ "User not found." <> "".
Proof.
  intros H. destruct (falsy_sentinels v H) as (A & B & C).
  repeat split; try assumption; discriminate.
Qed.

(** C6 (as amended).  The formatters return on every JSON object in
    which ["user"], where given, is an object and, for
    [format_article_details], ["body_markdown"], where given, is a
    string; [format_user_profile] returns on every object.  Any other
    items may be missing.  The text is the one written out below, in
    which every item is read with its default, and so an item that is
    missing shows as its default: ["## Untitled"],
    ["Author: Unknown Author"], ["Published: Unknown date"],
    ["Description: No description available."],
    ["No content available."], ["Bio: No bio available."],
    ["# Unknown (@Unknown)"].  Writing a default into a (for the two
    single-object formatters, non-empty) object that lacks the item
    leaves the text unchanged. *)
Theorem formatters_total_with_defaults (l : list json) (d : list (string * json)) :
  List.forallb article_ok l = true ->
  article_details_ok (JObj d) = true ->
  (* the formatters return *)
  ((exists out, format_articles (JList l) = Ok out)
   /\ (exists out, format_article_details (JObj d) = Ok out)
   /\ (forall u, exists out, format_user_profile (JObj u) = Ok out))
  (* the text they return *)
  /\ ((l <> [] ->
       format_articles (JList l)
       = Ok (render_lines
               ("# Dev.to Articles" :: "" :: List.flat_map article_entry_lines l)))
      /\ (forall o,
            article_entry_lines (JObj o)
            = [ "## " ++ py_str (get_or o "title" (JStr "Untitled"));
                "ID: " ++ py_str (get_or o "id" (JStr ""));
                "Author: " ++ py_str (author_of o);
                "Published: "
                  ++ py_str (get_or o "readable_publish_date" (JStr "Unknown date"));
                "Tags: " ++ py_str (get_or o "tags" (JStr ""));
                "Description: "
                  ++ py_str (get_or o "description" (JStr "No description available."));
                "" ])
      /\ (d <> [] ->
          format_article_details (JObj d)
          = Ok ("# " ++ py_str (get_or d "title" (JStr "Untitled")) ++ nl ++ nl
                ++ "Author: " ++ py_str (author_of d) ++ nl
                ++ "Published: "
                ++ py_str (get_or d "readable_publish_date" (JStr "Unknown date")) ++ nl
                ++ "Tags: " ++ py_str (get_or d "tags" (JStr "")) ++ nl ++ nl
                ++ "## Content" ++ nl ++ nl
                ++ py_str (get_or d "body_markdown" (JStr "No content available."))))
      /\ (forall u,
            u <> [] ->
            format_user_profile (JObj u) = Ok (render_lines (profile_lines u)))
      /\ (forall u,
            profile_lines u
            = let shown label key :=
                if field_truthy u key
                then [label ++ py_str (get_or u key (JStr ""))] else [] in
              List.concat
                [ [ "# " ++ py_str (get_or u "name" (JStr "Unknown"))
                      ++ " (@" ++ py_str (get_or u "username" (JStr "Unknown")) ++ ")";
                    "";
                    "Bio: " ++ py_str (get_or u "summary" (JStr "No bio available."));
                    "";
                    "## Details" ];
                  shown "Location: " "location";
                  shown "Member since: " "joined_at";
                  [ ""; "## Links" ];
                  shown "Twitter: @" "twitter_username";
                  shown "GitHub: " "github_username";
                  shown "Website: " "website_url" ])
      /\ (forall o, author_missing o = true -> py_str (author_of o) = "Unknown Author"))
  (* a missing item shows as its default *)
  /\ ((forall o key line,
         List.In (JObj o) l ->
         List.In (key, line) article_default_lines -> Dict.lookup key o = None ->
         exists out, format_articles (JList l) = Ok out /\ List.In line (lines out))
      /\ (forall o,
            List.In (JObj o) l -> author_missing o = true ->
            exists out,
              format_articles (JList l) = Ok out
              /\ List.In "Author: Unknown Author" (lines out))
      /\ (forall key line,
            d <> [] ->
            List.In (key, line) article_details_default_lines ->
            Dict.lookup key d = None ->
            exists out,
              format_article_details (JObj d) = Ok out /\ List.In line (lines out))
      /\ (d <> [] -> author_missing d = true ->
          exists out,
            format_article_details (JObj d) = Ok out
            /\ List.In "Author: Unknown Author" (lines out))
      /\ (forall u,
            u <> [] -> Dict.lookup "summary" u = None ->
            exists out,
              format_user_profile (JObj u) = Ok out
              /\ List.In "Bio: No bio available." (lines out))
      /\ (forall u,
            u <> [] ->
            Dict.lookup "name" u = None -> Dict.lookup "username" u = None ->
            exists out,
              format_user_profile (JObj u) = Ok out
              /\ List.In "# Unknown (@Unknown)" (lines out)))
  (* writing the default into the object changes nothing *)
  /\ ((forall l1 l2 o k v,
         List.In (k, v) article_defaults -> Dict.lookup k o = None ->
         format_articles (JList (l1 ++ JObj (Dict.set k v o) :: l2))
         = format_articles (JList (l1 ++ JObj o :: l2)))
      /\ (forall l1 l2 o u,
            Dict.lookup "user" o = Some (JObj u) -> Dict.lookup "name" u = None ->
            format_articles
              (JList (l1 ++ JObj (Dict.set "user"
                                    (JObj (Dict.set "name" (JStr "Unknown Author") u)) o)
                         :: l2))
            = format_articles (JList (l1 ++ JObj o :: l2)))
      /\ (forall o k v,
            o <> [] -> List.In (k, v) article_details_defaults ->
            Dict.lookup k o = None ->
            format_article_details (JObj (Dict.set k v o))
            = format_article_details (JObj o))
      /\ (forall o u,
            Dict.lookup "user" o = Some (JObj u) -> Dict.lookup "name" u = None ->
            format_article_details
              (JObj (Dict.set "user"
                       (JObj (Dict.set "name" (JStr "Unknown Author") u)) o))
            = format_article_details (JObj o))
      /\ (forall o k v,
            o <> [] -> List.In (k, v) profile_defaults -> Dict.lookup k o = None ->
            format_user_profile (JObj (Dict.set k v o))
            = format_user_profile (JObj o))).
Proof.
  intros Hl Hd. split; [|split; [|split]].
  - split; [|split].
    + now apply format_articles_total.
    + now apply format_article_details_total.
    + apply format_user_profile_total.
  - split; [|split; [|split; [|split; [|split]]]].
    + intros Hne. destruct l as [|a l0]; [now elim Hne|].
      apply (format_articles_lines _ _ Hl).
    + intros o. reflexivity.
    + intros Hne. apply (format_article_details_text d Hne Hd).
    + intros u Hu. now apply format_user_profile_lines.
    + intros u. reflexivity.
    + apply author_default.
  - split; [|split; [|split; [|split; [|split]]]].
    + intros o key line Ho Hin Hk.
      destruct (article_default_line_shown o key line Hin Hk) as [Hline Hs].
      now apply (format_articles_shows_line l o line).
    + intros o Ho Ha. apply (format_articles_shows_line l o); try assumption.
      * unfold article_entry_lines. rewrite (author_default o Ha).
        cbn [String.append]. auto 10 using List.in_eq, List.in_cons.
      * reflexivity.
    + intros key line Hne Hin Hk. eexists.
      split; [apply (format_article_details_rendered d Hne Hd)|].
      now apply (details_default_line_shown d key line).
    + intros Hne Ha. eexists.
      split; [apply (format_article_details_rendered d Hne Hd)|].
      apply line_in_rendered; [|reflexivity].
      unfold details_preamble. rewrite (author_default d Ha).
      cbn [String.append]. auto 10 using List.in_eq, List.in_cons.
    + intros u Hu Hk. apply profile_line_shown; [exact Hu| |reflexivity].
      unfold profile_lines, get_or. rewrite Hk.
      cbn [List.concat List.app py_str String.append].
      auto 10 using List.in_eq, List.in_cons.
    + intros u Hu Hn Hk. apply profile_line_shown; [exact Hu| |reflexivity].
      unfold profile_lines, get_or. rewrite Hn, Hk.
      cbn [List.concat List.app py_str String.append].
      auto 10 using List.in_eq, List.in_cons.
  - split; [|split; [|split; [|split]]].
    + intros l1 l2 o k v Hin Hk. apply format_articles_congr.
      intros result. now apply format_articles_step_default.
    + intros l1 l2 o u Hu Hn. apply format_articles_congr.
      intros result. now apply format_articles_step_default_name.
    + intros o k v Ho Hin Hk. now apply format_article_details_default.
    + intros o u Hu Hn. now apply format_article_details_default_name.
    + intros o k v Ho Hin Hk. now apply format_user_profile_default.
Qed.

(** C7.  [update_article] first sends the GET for the article; if that
    fails, the failure is the result and nothing else is sent.
    Otherwise, whatever the article fetched, it sends one PUT whose body
    is [{"article": fields}], where [fields] holds exactly the items
    among title, body_markdown, tags, published that the caller
    supplied, and, when the answer is an object, returns the text
    reporting its ["url"]. *)
Theorem update_article_partial_payload
  (article_id : Z) (title body_markdown tags : option string) (published : option bool)
  (w : world) (existing : json) (updated : list (string * json))
  (rest : list (outcome json)) :
  responses w = Ok existing :: Ok (JObj updated) :: rest ->
  let run := update_article article_id title body_markdown tags published w in
  let fields := update_fields title body_markdown tags published in
  requests_of run
  = (sent w
     ++ [ {| req_method := GET;
             req_url := BASE_URL ++ "/articles/" ++ decimal article_id;
             req_params := None; req_json := None; req_headers := [] |};
          {| req_method := PUT;
             req_url := BASE_URL ++ "/articles/" ++ decimal article_id;
             req_params := None;
             req_json := Some (JObj [("article", JObj fields)]);
             req_headers := [] |} ])%list
  /\ (forall key,
        Dict.lookup key fields = supplied title body_markdown tags published key)
  /\ Dict.keys fields
     = List.filter
         (fun key =>
            match supplied title body_markdown tags published key with
            | Some _ => true
            | None => false
            end)
         ["title"; "body_markdown"; "tags"; "published"]
  /\ result_of run
     = Ok ("Article updated successfully" ++ nl
           ++ "URL: " ++ py_str (get_or updated "url" JNull))
  /\ (forall w' e rest',
        responses w' = Raise e :: rest' ->
        let failed := update_article article_id title body_markdown tags published w' in
        result_of failed = Raise e
        /\ requests_of failed
           = (sent w'
              ++ [ {| req_method := GET;
                      req_url := BASE_URL ++ "/articles/" ++ decimal article_id;
                      req_params := None; req_json := None;
                      req_headers := [] |} ])%list).
Proof.
  intros Hw run fields. subst run fields. repeat split.
  - unfold update_article. run_io Hw. now rewrite <- List.app_assoc.
  - intros key. unfold supplied.
    destruct title, body_markdown, tags, published; simpl;
      repeat (match goal with
              | |- context [String.eqb key ?k] =>
                  destruct (String.eqb_spec key k) as [->|]
              end; simpl);
      reflexivity.
  - destruct title, body_markdown, tags, published; reflexivity.
  - unfold update_article. run_io Hw. reflexivity.
  - unfold update_article. run_io H. reflexivity.
  - unfold update_article. run_io H. reflexivity.
Qed.

(** C8.  With [DEV_TO_API_KEY] set in the environment,
    [create_article] sends one POST to [/articles] whose body is
    [{"article": {title, body_markdown, published, tags}}] and whose
    headers carry, under ["api-key"], the value of that variable; when
    the answer is an object it returns the text reporting its ["id"]
    and ["url"].  No request sent by [update_article] carries a
    header. *)
Theorem create_article_request
  (title body_markdown tags : string) (published : bool)
  (w : world) (key : string) (created : list (string * json))
  (rest : list (outcome json)) :
  env_lookup "DEV_TO_API_KEY" (environ w) = Some key ->
  responses w = Ok (JObj created) :: rest ->
  let run := create_article title body_markdown tags published w in
  requests_of run
  = (sent w
     ++ [ {| req_method := POST;
             req_url := BASE_URL ++ "/articles";
             req_params := None;
             req_json :=
               Some (JObj [("article",
                            JObj [("title", JStr title);
                                  ("body_markdown", JStr body_markdown);
                                  ("published", JBool published);
                                  ("tags", JStr tags)])]);
             req_headers :=
               [("Content-Type", Some "application/json");
                ("api-key", Some key)] |} ])%list
  /\ result_of run
     = Ok ("Article created successfully with ID: "
           ++ py_str (get_or created "id" JNull) ++ nl
           ++ "URL: " ++ py_str (get_or created "url" JNull))
  /\ (forall article_id t b g p w',
        exists new,
          requests_of (update_article article_id t b g p w') = (sent w' ++ new)%list
          /\ List.Forall (fun r => req_headers r = []) new).
Proof.
  intros Hkey Hw run. subst run. split; [|split].
  - unfold create_article, client_post, header_values_given. run_io Hw.
    rewrite Hkey. cbn [req_headers List.forallb snd andb].
    rewrite Hw. reflexivity.
  - unfold create_article, client_post, header_values_given. run_io Hw.
    rewrite Hkey. cbn [req_headers List.forallb snd andb].
    rewrite Hw. reflexivity.
  - intros article_id t b g p w'. unfold update_article.
    destruct (responses w') as [|[existing|e] [|[updated|e'] rest']] eqn:Hw';
      run_io Hw'; try (destruct (py_get updated "url" JNull));
      cbn [fst snd sent]; rewrite <- ?List.app_assoc;
      eexists; (split; [reflexivity|]); repeat constructor.
Qed.

End MoreProperties.

Section ProfileProperties.

Context {py : PyBuiltins}.

Lemma profile_lines_single (d : list (string * json)) :
  List.forallb single_line (profile_texts d) = true ->
  List.forallb single_line (profile_lines d) = true.
Proof.
  unfold profile_texts, profile_lines.
  generalize (py_str (get_or d "name" (JStr "Unknown")))
             (py_str (get_or d "username" (JStr "Unknown")))
             (py_str (get_or d "summary" (JStr "No bio available.")))
             (py_str (get_or d "location" (JStr "")))
             (py_str (get_or d "joined_at" (JStr "")))
             (py_str (get_or d "twitter_username" (JStr "")))
             (py_str (get_or d "github_username" (JStr "")))
             (py_str (get_or d "website_url" (JStr ""))).
  intros name username bio location joined twitter github website.
  destruct (field_truthy d "location"), (field_truthy d "joined_at"),
    (field_truthy d "twitter_username"), (field_truthy d "github_username"),
    (field_truthy d "website_url");
    cbn [List.concat List.app List.forallb]; intros H;
    repeat rewrite single_line_append;
    cbn [single_line negb Ascii.eqb Bool.eqb andb LF];
    repeat match goal with
           | H : _ && _ = true |- _ => apply andb_prop in H as [? ?]
           end;
    repeat match goal with
           | H : single_line _ = true |- _ => rewrite H; clear H
           end;
    reflexivity.
Qed.

(** The two section headings are lines of every profile. *)
Lemma profile_section_headings (d : list (string * json)) :
  List.In "## Details" (lines (render_lines (profile_lines d)))
  /\ List.In "## Links" (lines (render_lines (profile_lines d))).
Proof.
  rewrite lines_render. split; apply List.in_or_app; left; apply List.in_flat_map.
  - exists "## Details". split; [|now left].
    unfold profile_lines. cbn [List.concat List.app]. auto 10 using List.in_eq, List.in_cons.
  - exists "## Links". split; [|now left].
    unfold profile_lines.
    destruct (field_truthy d "location"), (field_truthy d "joined_at");
      cbn [List.concat List.app]; auto 12 using List.in_eq, List.in_cons.
Qed.

Lemma existsb_shown {A} (f : A -> bool) (b : bool) (x : A) :
  List.existsb f (if b then [x] else []) = b && f x.
Proof. destruct b; simpl; [apply orb_false_r | reflexivity]. Qed.

Lemma labelled_line_found (label lead text : string) (bodies : list string) :
  single_line (label ++ lead) = true ->
  List.In ((label ++ lead) ++ text) bodies ->
  List.existsb (String.prefix label) (List.flat_map lines bodies) = true.
Proof.
  intros Hs Hin. apply List.existsb_exists.
  exists ((label ++ lead) ++ first_line text). split.
  - apply List.in_flat_map. eexists. split; [exact Hin|].
    rewrite (lines_label _ _ Hs). now left.
  - rewrite append_assoc. apply prefix_append.
Qed.

(** An optional item Python takes for true has its labelled line. *)
Lemma profile_optional_line_shown (d : list (string * json)) (label key : string) :
  List.In (label, key) profile_optional_lines ->
  field_truthy d key = true ->
  has_line_starting label (render_lines (profile_lines d)) = true.
Proof.
  intros Hin Ht. unfold has_line_starting. rewrite lines_render.
  rewrite List.existsb_app. apply orb_true_intro. left.
  unfold profile_optional_lines in Hin.
  repeat (destruct Hin as [Hin|Hin]; [inversion Hin; subst; clear Hin|]);
    [..|destruct Hin].
  - apply (labelled_line_found "Location:" " " (py_str (get_or d "location" (JStr ""))));
      [reflexivity|].
    unfold profile_lines. rewrite Ht.
    cbn [List.concat List.app]. auto 12 using List.in_eq, List.in_cons.
  - apply (labelled_line_found "Member since:" " "
             (py_str (get_or d "joined_at" (JStr "")))); [reflexivity|].
    unfold profile_lines. rewrite Ht.
    destruct (field_truthy d "location");
      cbn [List.concat List.app]; auto 12 using List.in_eq, List.in_cons.
  - apply (labelled_line_found "Twitter:" " @"
             (py_str (get_or d "twitter_username" (JStr "")))); [reflexivity|].
    unfold profile_lines. rewrite Ht.
    destruct (field_truthy d "location"), (field_truthy d "joined_at");
      cbn [List.concat List.app]; auto 14 using List.in_eq, List.in_cons.
  - apply (labelled_line_found "GitHub:" " "
             (py_str (get_or d "github_username" (JStr "")))); [reflexivity|].
    unfold profile_lines. rewrite Ht.
    destruct (field_truthy d "location"), (field_truthy d "joined_at"),
      (field_truthy d "twitter_username");
      cbn [List.concat List.app]; auto 14 using List.in_eq, List.in_cons.
  - apply (labelled_line_found "Website:" " "
             (py_str (get_or d "website_url" (JStr "")))); [reflexivity|].
    unfold profile_lines. rewrite Ht.
    destruct (field_truthy d "location"), (field_truthy d "joined_at"),
      (field_truthy d "twitter_username"), (field_truthy d "github_username");
      cbn [List.concat List.app]; auto 16 using List.in_eq, List.in_cons.
Qed.

(** When no spliced text contains a line feed, a labelled line is there
    exactly for the optional items Python takes for true. *)
Lemma profile_optional_line_iff (d : list (string * json)) (label key : string) :
  List.In (label, key) profile_optional_lines ->
  List.forallb single_line (profile_texts d) = true ->
  has_line_starting label (render_lines (profile_lines d)) = field_truthy d key.
Proof.
  intros Hin Hs. unfold has_line_starting.
  rewrite lines_render, (flat_map_lines_single _ (profile_lines_single d Hs)).
  clear Hs. unfold profile_lines, profile_optional_lines in *.
  cbn [List.concat]. repeat rewrite List.existsb_app. repeat rewrite existsb_shown.
  repeat (destruct Hin as [Hin|Hin]; [inversion Hin; subst; clear Hin|]);
    [..|destruct Hin];
    cbn [List.existsb]; decide_prefix;
    destruct (field_truthy d "location"), (field_truthy d "joined_at"),
      (field_truthy d "twitter_username"), (field_truthy d "github_username"),
      (field_truthy d "website_url");
    reflexivity.
Qed.

(** C10 (as amended).  The profile of a non-empty user object has the
    lines ["## Details"] and ["## Links"] whatever its items.  An
    optional item (location, joined_at, twitter_username,
    github_username, website_url) that is given and taken for true by
    Python has its labelled line; and when no text spliced into the
    profile contains a line feed, a line with that label is there exactly
    when the item is given and taken for true. *)
Theorem profile_sections_and_optional_lines (d : list (string * json)) :
  d <> [] ->
  exists out,
    format_user_profile (JObj d) = Ok out
    /\ List.In "## Details" (lines out)
    /\ List.In "## Links" (lines out)
    /\ forall label key,
         List.In (label, key) profile_optional_lines ->
         (field_truthy d key = true -> has_line_starting label out = true)
         /\ (List.forallb single_line (profile_texts d) = true ->
             has_line_starting label out = field_truthy d key).
Proof.
  intros Hd. exists (render_lines (profile_lines d)).
  split; [now apply format_user_profile_lines|].
  destruct (profile_section_headings d) as [HD HL].
  repeat split; try assumption.
  - now apply profile_optional_line_shown.
  - now apply profile_optional_line_iff.
Qed.

End ProfileProperties.

(* ================================================================== *)
(** * The model at work *)
(* ================================================================== *)

Example format_sparse_article :
  format_articles (py := ascii_builtins) (JList [sparse_article])
  = Ok ("# Dev.to Articles" ++ nl ++ nl
        ++ "## Untitled" ++ nl
        ++ "ID: 7" ++ nl
        ++ "Author: Unknown Author" ++ nl
        ++ "Published: Unknown date" ++ nl
        ++ "Tags: " ++ nl
        ++ "Description: No description available." ++ nl ++ nl).
Proof. reflexivity. Qed.

Example format_sparse_details :
  format_article_details (py := ascii_builtins) sparse_article
  = Ok ("# Untitled" ++ nl ++ nl
        ++ "Author: Unknown Author" ++ nl
        ++ "Published: Unknown date" ++ nl
        ++ "Tags: " ++ nl ++ nl
        ++ "## Content" ++ nl ++ nl
        ++ "No content available.").
Proof. reflexivity. Qed.

Example format_sample_user :
  format_user_profile (py := ascii_builtins) (JObj sample_user)
  = Ok ("# Ann (@ann)" ++ nl ++ nl
        ++ "Bio: No bio available." ++ nl ++ nl
        ++ "## Details" ++ nl
        ++ "Location: Mars" ++ nl
        ++ nl ++ "## Links" ++ nl).
Proof. reflexivity. Qed.

(** ** Instances of the properties *)

Lemma article_list_heading_count_witness :
  exists out,
    result_of (get_top_articles (py := ascii_builtins)
                 (peer [Ok (JList [sample_article; sparse_article])] []))
    = Ok out
    /\ lines_starting "## " out = 2.
Proof.
  destruct (article_list_heading_count (py := ascii_builtins)
              [sample_article; sparse_article]
              (peer [Ok (JList [sample_article; sparse_article])] []) []
              "" "" (get_top_articles (py := ascii_builtins)))
    as (out & E & _ & _ & Hn);
    [reflexivity | reflexivity | simpl; auto |].
  exists out. split; [exact E|]. apply Hn. reflexivity.
Defined.


Lemma get_user_info_status_error_witness :
  result_of (get_user_info (py := ascii_builtins) "ann"
               (peer [Raise (HTTPStatusError 404)] []))
  = Ok "User ann not found.".
Proof.
  apply (get_user_info_status_error (py := ascii_builtins) "ann"
           (peer [Raise (HTTPStatusError 404)] []) 404 []); reflexivity.
Defined.

Lemma get_top_articles_blocks_witness :
  result_of (get_top_articles (py := ascii_builtins)
               (peer [Ok (JList [sample_article; sparse_article])] []))
  = Ok (articles_header
        ++ cat (List.map (article_block (py := ascii_builtins))
                  [sample_article; sparse_article])).
Proof.
  apply (get_top_articles_blocks (py := ascii_builtins) sample_article [sparse_article]
           (peer [Ok (JList [sample_article; sparse_article])] []) []); reflexivity.
Defined.

Lemma formatters_empty_input_witness :
  format_articles (py := ascii_builtins) (JList []) = Ok "No articles found."
  /\ format_article_details (py := ascii_builtins) (JObj []) = Ok "Article not found."
  /\ format_user_profile (py := ascii_builtins) JNull = Ok "User not found.".
Proof.
  split; [|split].
  - apply (formatters_empty_input (py := ascii_builtins) (JList [])). reflexivity.
  - apply (formatters_empty_input (py := ascii_builtins) (JObj [])). reflexivity.
  - apply (formatters_empty_input (py := ascii_builtins) JNull). reflexivity.
Defined.

Lemma formatters_total_with_defaults_witness :
  (exists out,
     format_articles (py := ascii_builtins) (JList [sample_article; sparse_article])
     = Ok out
     /\ List.In "## Untitled" (lines out)
     /\ List.In "Author: Unknown Author" (lines out))
  /\ (exists out,
        format_article_details (py := ascii_builtins) sparse_article = Ok out
        /\ List.In "No content available." (lines out)).
Proof.
  destruct (formatters_total_with_defaults (py := ascii_builtins)
              [sample_article; sparse_article] [("id", JInt 7)])
    as (_ & _ & (A & B & C & _) & _); [reflexivity | reflexivity |].
  split.
  - destruct (A [("id", JInt 7)] "title" "## Untitled") as (out & E & Ht);
      [simpl; auto | simpl; auto | reflexivity |].
    destruct (B [("id", JInt 7)]) as (out' & E' & Ha); [simpl; auto | reflexivity |].
    exists out. split; [exact E|]. split; [exact Ht|].
    rewrite E in E'. injection E' as <-. exact Ha.
  - apply (C "body_markdown" "No content available.");
      [discriminate | simpl; auto | reflexivity].
Defined.

Lemma update_article_partial_payload_witness :
  List.map req_json
    (requests_of
       (update_article (py := ascii_builtins) 7 (Some "New title") None None (Some true)
          (peer [Ok sparse_article; Ok (JObj [("url", JStr "https://dev.to/a/7")])] [])))
  = [ None;
      Some (JObj [("article",
                   JObj [("title", JStr "New title"); ("published", JBool true)])]) ].
Proof.
  destruct (update_article_partial_payload (py := ascii_builtins)
              7 (Some "New title") None None (Some true)
              (peer [Ok sparse_article; Ok (JObj [("url", JStr "https://dev.to/a/7")])] [])
              sparse_article [("url", JStr "https://dev.to/a/7")] [])
    as (E & _); [reflexivity|].
  rewrite E. reflexivity.
Defined.

Lemma create_article_request_witness :
  result_of
    (create_article (py := ascii_builtins) "Title" "Body" "python" false
       (peer [Ok (JObj [("id", JInt 9); ("url", JStr "https://dev.to/a/9")])]
          [("DEV_TO_API_KEY", "secret")]))
  = Ok ("Article created successfully with ID: 9" ++ nl ++ "URL: https://dev.to/a/9").
Proof.
  destruct (create_article_request (py := ascii_builtins) "Title" "Body" "python" false
              (peer [Ok (JObj [("id", JInt 9); ("url", JStr "https://dev.to/a/9")])]
                 [("DEV_TO_API_KEY", "secret")])
              "secret" [("id", JInt 9); ("url", JStr "https://dev.to/a/9")] [])
    as (_ & E & _); [reflexivity | reflexivity |].
  exact E.
Defined.

Lemma search_articles_empty_query_witness :
  result_of (search_articles (py := ascii_builtins) "" 1
               (peer [Ok (JList [sample_article; JObj []])] []))
  = format_articles (py := ascii_builtins) (JList [sample_article; JObj []]).
Proof.
  destruct (search_articles_empty_query (py := ascii_builtins) 1
              [sample_article; JObj []]
              (peer [Ok (JList [sample_article; JObj []])] []) [])
    as (_ & _ & E); [reflexivity | reflexivity | reflexivity |].
  exact E.
Defined.

Lemma profile_sections_and_optional_lines_witness :
  exists out,
    format_user_profile (py := ascii_builtins) (JObj sample_user) = Ok out
    /\ List.In "## Details" (lines out)
    /\ has_line_starting "Location:" out = true
    /\ has_line_starting "GitHub:" out = false.
Proof.
  destruct (profile_sections_and_optional_lines (py := ascii_builtins) sample_user)
    as (out & E & HD & _ & Hopt); [discriminate|].
  exists out. split; [exact E|]. split; [exact HD|]. split.
  - apply (Hopt "Location:" "location"); [simpl; auto | reflexivity].
  - destruct (Hopt "GitHub:" "github_username") as [_ Hiff]; [simpl; auto 6|].
    rewrite Hiff; reflexivity.
Defined.

(** ** Inputs on which the wording of the specification fails *)

(** One article whose description has a second line ["## more"]: the
    text of [get_top_articles] has two lines starting with ["## "]. *)
Lemma heading_count_counterexample :
  exists out,
    result_of (get_top_articles (py := ascii_builtins)
                 (peer [Ok (JList [two_line_article])] []))
    = Ok out
    /\ List.length [two_line_article] = 1
    /\ lines_starting "## " out = 2.
Proof. eexists. split; [reflexivity|]. split; reflexivity. Qed.

(** The empty list: the text is ["No articles found."], which does not
    start with the header; and an article whose author is [null]: the
    tool raises. *)
Lemma get_top_articles_counterexample :
  result_of (get_top_articles (py := ascii_builtins) (peer [Ok (JList [])] []))
  = Ok "No articles found."
  /\ String.prefix articles_header "No articles found." = false
  /\ result_of (get_top_articles (py := ascii_builtins)
                  (peer [Ok (JList [anonymous_article])] []))
     = Raise AttributeError.
Proof. repeat split. Qed.

(** Two JSON objects on which a formatter raises. *)
Lemma formatters_total_counterexample :
  format_articles (py := ascii_builtins) (JList [anonymous_article])
  = Raise AttributeError
  /\ format_article_details (py := ascii_builtins) anonymous_article
     = Raise AttributeError
  /\ format_article_details (py := ascii_builtins) bodyless_article = Raise TypeError.
Proof. repeat split. Qed.

(** A user without location whose bio has a second line
    ["Location: Mars"]: the profile has a line starting with
    ["Location:"]. *)
Lemma profile_optional_lines_counterexample :
  exists out,
    format_user_profile (py := ascii_builtins) (JObj two_line_bio_user) = Ok out
    /\ field_truthy two_line_bio_user "location" = false
    /\ has_line_starting "Location:" out = true
    /\ List.In "Location: Mars" (lines out).
Proof.
  eexists. split; [reflexivity|]. split; [reflexivity|]. split; [reflexivity|].
  simpl. auto 10.
Qed.

(* ================================================================== *)
(** * Further properties of the formatters *)
(* ================================================================== *)

Section FormatterOutcomes.

Context {py : PyBuiltins}.

Lemma format_articles_step_bad (result : string) (a : json) :
  article_ok a = false -> format_articles_step result a = Raise AttributeError.
Proof.
  destruct a as [| | | | | |d]; try reflexivity.
  unfold article_ok, obj_or_missing, format_articles_step, py_get.
  destruct (Dict.lookup "user" d) as [[| | | | | |u]|]; try discriminate;
    intros _; reflexivity.
Qed.

Lemma format_articles_loop_bad (l : list json) (result : string) :
  List.forallb article_ok l = false ->
  for_each format_articles_step l result = Raise AttributeError.
Proof.
  revert result; induction l as [|a l IH]; intros result; simpl; [discriminate|].
  destruct (article_ok a) eqn:Ha; simpl.
  - intros Hl. rewrite (format_articles_step_ok _ _ Ha). simpl. now apply IH.
  - intros _. now rewrite (format_articles_step_bad _ _ Ha).
Qed.

Lemma format_articles_cases (l : list json) :
  format_articles (JList l)
  = if List.forallb article_ok l
    then Ok (match l with
             | [] => "No articles found."
             | _ :: _ => articles_header ++ cat (List.map article_block l)
             end)
    else Raise AttributeError.
Proof.
  destruct l as [|a l]; [reflexivity|].
  unfold format_articles. cbn [truthy negb py_iter bind]. cbv iota.
  destruct (List.forallb article_ok (a :: l)) eqn:H.
  - apply (format_articles_loop _ _ H).
  - apply (format_articles_loop_bad _ _ H).
Qed.

(** X1.  [format_articles] in closed form: it returns exactly when every
    entry is an object whose ["user"], if given, is an object, and
    raises [AttributeError] otherwise, whatever the other entries. *)
Theorem format_articles_closed_form (l : list json) :
  format_articles (JList l)
  = if List.forallb article_ok l
    then Ok (match l with
             | [] => "No articles found."
             | _ :: _ => articles_header ++ cat (List.map article_block l)
             end)
    else Raise AttributeError.
Proof. exact (format_articles_cases l). Qed.

Lemma cat_app (xs ys : list string) : cat (xs ++ ys) = cat xs ++ cat ys.
Proof.
  induction xs as [|x xs IH]; simpl; [reflexivity | now rewrite IH, append_assoc].
Qed.

(** X2.  The text for a list continues the text for any non-empty front
    part of it: later articles never change what stands before them. *)
Theorem format_articles_extends (l1 l2 : list json) :
  l1 <> [] ->
  List.forallb article_ok (l1 ++ l2) = true ->
  exists front,
    format_articles (JList l1) = Ok front
    /\ format_articles (JList (l1 ++ l2))
       = Ok (front ++ cat (List.map article_block l2)).
Proof.
  intros Hne Hok. rewrite !format_articles_cases, Hok.
  rewrite List.forallb_app in Hok. apply andb_prop in Hok as [H1 H2]. rewrite H1.
  destruct l1 as [|a l1]; [now elim Hne|].
  eexists. split; [reflexivity|]. cbn [List.app].
  change (a :: (l1 ++ l2)%list) with ((a :: l1) ++ l2)%list.
  now rewrite List.map_app, cat_app, append_assoc.
Qed.

Lemma entry_lines_single (a : json) :
  article_ok a = true ->
  article_single_line a = true ->
  List.forallb single_line (article_entry_lines a) = true.
Proof.
  destruct a as [| | | | | |d]; try discriminate. intros _.
  unfold article_single_line, article_texts, article_entry_lines.
  cbn [List.forallb]. intros H.
  repeat rewrite single_line_append.
  cbn [single_line negb Ascii.eqb Bool.eqb andb LF].
  repeat match goal with
         | H : _ && _ = true |- _ => apply andb_prop in H as [? ?]
         end;
  repeat match goal with
         | H : single_line _ = true |- _ => rewrite H; clear H
         end;
  reflexivity.
Qed.

Lemma entries_single (l : list json) :
  List.forallb article_ok l = true ->
  List.forallb article_single_line l = true ->
  List.forallb single_line (List.flat_map article_entry_lines l) = true.
Proof.
  induction l as [|a l IH]; simpl; [reflexivity|].
  intros [Ha Hl]%andb_prop [Sa Sl]%andb_prop.
  rewrite List.forallb_app, (entry_lines_single _ Ha Sa), (IH Hl Sl). reflexivity.
Qed.

Lemma entries_length (l : list json) :
  List.forallb article_ok l = true ->
  List.length (List.flat_map article_entry_lines l) = 7 * List.length l.
Proof.
  induction l as [|a l IH]; simpl; [reflexivity|].
  intros [Ha Hl]%andb_prop. rewrite List.length_app, (IH Hl).
  destruct a as [| | | | | |d]; try discriminate. simpl. lia.
Qed.

(** X3.  When no spliced text contains a line feed, the text of a non-empty
    list is, line by line, the title line, an empty line, the seven
    lines of each article in the order of the list, and a last empty
    line: [7 * n + 3] lines for [n] articles, the heading of the article
    at position [k] (from 0) being line [2 + 7 * k]. *)
Theorem format_articles_line_layout (a : json) (l : list json) :
  List.forallb article_ok (a :: l) = true ->
  List.forallb article_single_line (a :: l) = true ->
  exists out,
    format_articles (JList (a :: l)) = Ok out
    /\ lines out
       = ("# Dev.to Articles" :: "" :: List.flat_map article_entry_lines (a :: l)
          ++ [""])%list
    /\ List.length (lines out) = 7 * List.length (a :: l) + 3
    /\ forall k d,
         List.nth_error (a :: l) k = Some (JObj d) ->
         List.nth_error (lines out) (2 + 7 * k)
         = Some ("## " ++ py_str (get_or d "title" (JStr "Untitled"))).
Proof.
  intros Hok Hs. eexists. split; [apply (format_articles_lines _ _ Hok)|].
  assert (L : lines (render_lines
                       ("# Dev.to Articles" :: ""
                          :: List.flat_map article_entry_lines (a :: l)))
              = ("# Dev.to Articles" :: "" :: List.flat_map article_entry_lines (a :: l)
                 ++ [""])%list).
  { rewrite lines_render. f_equal.
    change (List.flat_map lines
              ("# Dev.to Articles" :: "" :: List.flat_map article_entry_lines (a :: l)))
      with ("# Dev.to Articles" :: ""
              :: List.flat_map lines (List.flat_map article_entry_lines (a :: l))).
    now rewrite (flat_map_lines_single _ (entries_single _ Hok Hs)). }
  rewrite L. split; [reflexivity|]. split.
  - cbn [List.length]. rewrite List.length_app, (entries_length _ Hok). simpl. lia.
  - intros k d Hk. change (2 + 7 * k) with (S (S (7 * k))). cbn [List.nth_error].
    revert Hk. generalize (a :: l) Hok. clear.
    intros l0; revert k; induction l0 as [|b l0 IH]; intros k Hok Hk.
    + destruct k; discriminate.
    + simpl in Hok. apply andb_prop in Hok as [Hb Hl].
      destruct k as [|k].
      * simpl in Hk. injection Hk as ->. reflexivity.
      * simpl in Hk. cbn [List.flat_map]. rewrite <- List.app_assoc.
        destruct b as [| | | | | |db]; try discriminate.
        replace (7 * S k) with (7 + 7 * k) by lia.
        cbn [article_entry_lines List.app Nat.add List.nth_error].
        now apply IH.
Qed.

Lemma format_article_details_cases (v : json) :
  truthy v = true ->
  match v with
  | JObj d =>
      if negb (obj_or_missing d "user") then
        format_article_details v = Raise AttributeError
      else if not_a_string d "body_markdown" then
        format_article_details v = Raise TypeError
      else
        format_article_details v
        = Ok (render_lines (details_preamble d)
              ++ py_str (get_or d "body_markdown" (JStr "No content available.")))
  | _ => format_article_details v = Raise AttributeError
  end.
Proof.
  intros Ht. unfold format_article_details. rewrite Ht. cbn [negb]. cbv iota.
  destruct v as [| | | | | |d]; try reflexivity.
  unfold obj_or_missing, not_a_string, str_or_missing, details_preamble, author_of,
    get_or, py_get.
  destruct (Dict.lookup "user" d) as [[| | | | | |u]|]; try reflexivity;
    destruct (Dict.lookup "body_markdown" d) as [[| | | |body| |]|]; try reflexivity;
    simpl; f_equal; flatten_text; reflexivity.
Qed.

(** X4.  What [format_article_details] does with a value Python takes for
    true: anything but an object has no [.get]; an object whose
    ["user"] is given and is not an object fails on the second [.get];
    otherwise a ["body_markdown"] that is given and is not a string
    cannot be appended; otherwise the text is returned. *)
Theorem format_article_details_outcomes (v : json) :
  truthy v = true ->
  match v with
  | JObj d =>
      if negb (obj_or_missing d "user") then
        format_article_details v = Raise AttributeError
      else if not_a_string d "body_markdown" then
        format_article_details v = Raise TypeError
      else
        format_article_details v
        = Ok (render_lines (details_preamble d)
              ++ py_str (get_or d "body_markdown" (JStr "No content available.")))
  | _ => format_article_details v = Raise AttributeError
  end.
Proof. exact (format_article_details_cases v). Qed.

(** X5.  The body of an article comes out line for line as it is, after the
    eight lines that precede it. *)
Theorem format_article_details_body_lines (d : list (string * json)) :
  d <> [] ->
  article_details_ok (JObj d) = true ->
  List.forallb single_line (details_texts d) = true ->
  exists out,
    format_article_details (JObj d) = Ok out
    /\ lines out
       = (details_preamble d
          ++ lines (py_str (get_or d "body_markdown" (JStr "No content available."))))%list.
Proof.
  intros Hd Hok Hs.
  pose proof (format_article_details_cases (JObj d) (truthy_obj _ Hd)) as E.
  cbv beta iota in E. unfold article_details_ok, not_a_string in *.
  apply andb_prop in Hok as [Hu Hb]. rewrite Hu, Hb in E. cbn [negb] in E.
  eexists. split; [exact E|]. rewrite lines_render_then. f_equal.
  apply flat_map_lines_single.
  unfold details_texts, details_preamble in *. cbn [List.forallb] in *.
  repeat rewrite single_line_append.
  cbn [single_line negb Ascii.eqb Bool.eqb andb LF].
  repeat match goal with
         | H : _ && _ = true |- _ => apply andb_prop in H as [? ?]
         end;
  repeat match goal with
         | H : single_line _ = true |- _ => rewrite H; clear H
         end;
  reflexivity.
Qed.

(** X6.  A [null] is not a missing item: the default stands in only for an
    absent key, and a bio or a description sent as [null] is printed as
    [None]. *)
Theorem null_is_not_missing (d : list (string * json)) :
  (Dict.lookup "summary" d = Some JNull ->
   exists out,
     format_user_profile (JObj d) = Ok out /\ List.In "Bio: None" (lines out))
  /\ (d <> [] -> Dict.lookup "summary" d = None ->
      exists out,
        format_user_profile (JObj d) = Ok out
        /\ List.In "Bio: No bio available." (lines out))
  /\ (Dict.lookup "description" d = Some JNull -> article_ok (JObj d) = true ->
      exists out,
        format_articles (JList [JObj d]) = Ok out
        /\ List.In "Description: None" (lines out))
  /\ (Dict.lookup "description" d = None -> article_ok (JObj d) = true ->
      exists out,
        format_articles (JList [JObj d]) = Ok out
        /\ List.In "Description: No description available." (lines out)).
Proof.
  assert (P : forall line,
             List.In line (profile_lines d) -> single_line line = true ->
             d <> [] ->
             exists out,
               format_user_profile (JObj d) = Ok out /\ List.In line (lines out)).
  { intros line Hin Hs Hd. eexists. split; [now apply format_user_profile_lines|].
    rewrite lines_render. apply List.in_or_app. left. apply List.in_flat_map.
    exists line. split; [exact Hin|]. rewrite (lines_single _ Hs). now left. }
  assert (A : forall line,
             List.In line (article_entry_lines (JObj d)) -> single_line line = true ->
             article_ok (JObj d) = true ->
             exists out,
               format_articles (JList [JObj d]) = Ok out /\ List.In line (lines out)).
  { intros line Hin Hs Hok. eexists. split.
    - apply format_articles_lines. cbn [List.forallb]. now rewrite Hok.
    - rewrite lines_render. apply List.in_or_app. left. apply List.in_flat_map.
      exists line. split; [|rewrite (lines_single _ Hs); now left].
      cbn [List.flat_map]. rewrite List.app_nil_r. now do 2 right. }
  split; [|split; [|split]].
  - intros H. apply P; [|reflexivity|intros ->; discriminate].
    unfold profile_lines, get_or. rewrite H. cbn [List.concat List.app py_str py_repr].
    auto 8 using List.in_eq, List.in_cons.
  - intros Hd H. apply P; [|reflexivity|exact Hd].
    unfold profile_lines, get_or. rewrite H. cbn [List.concat List.app py_str].
    auto 8 using List.in_eq, List.in_cons.
  - intros H. apply A; [|reflexivity].
    unfold article_entry_lines, get_or. rewrite H. cbn [py_str py_repr].
    auto 10 using List.in_eq, List.in_cons.
  - intros H. apply A; [|reflexivity].
    unfold article_entry_lines, get_or. rewrite H. cbn [py_str].
    auto 10 using List.in_eq, List.in_cons.
Qed.

End FormatterOutcomes.

(* ================================================================== *)
(** * Further properties of the tools *)
(* ================================================================== *)

(** Decide the remaining case distinctions of a handler that was run. *)
Ltac finish_io :=
  repeat match goal with
         | |- context [match ?x with _ => _ end] => destruct x
         end;
  cbn [fst snd sent responses environ]; try reflexivity.

(** Run [create_article] in an environment whose key is known. *)
Ltac run_create Hkey :=
  unfold create_article, client_post, header_values_given, result_of, requests_of,
    io_bind, io_lift, io_ret, io_raise, getenv, send;
  rewrite Hkey; cbn [req_headers List.forallb snd andb fst sent responses environ].

Section ToolFacts.

Context {py : PyBuiltins}.

(** Every failure inside [search_matches] is an [AttributeError]. *)
Lemma search_matches_raise (query : string) (a : json) (e : exn) :
  search_matches query a = Raise e -> e = AttributeError.
Proof.
  unfold search_matches, py_get, py_lower.
  destruct a as [| | | | | |d]; simpl; try (intros [= <-]; reflexivity).
  destruct (Dict.lookup "title" d) as [[| | | |t| |]|]; simpl;
    try (intros [= <-]; reflexivity);
    destruct (contains _ _); try discriminate;
    destruct (Dict.lookup "description" d) as [[| | | |s| |]|]; simpl;
    try discriminate; intros [= <-]; reflexivity.
Qed.

Lemma filtered_articles_loop_raise (query : string) (page kept : list json) (a : json) :
  List.In a page ->
  search_matches query a = Raise AttributeError ->
  for_each
    (fun kept article =>
       bind (search_matches query article)
         (fun hit => Ok (if hit then (kept ++ [article])%list else kept)))
    page kept
  = Raise AttributeError.
Proof.
  intros Hin Ha. revert kept; induction page as [|b page IH]; intros kept;
    [destruct Hin|].
  simpl. destruct (search_matches query b) as [hit|e] eqn:Hb; simpl.
  - destruct Hin as [->|Hin]; [congruence|]. now apply IH.
  - now rewrite (search_matches_raise _ _ _ Hb).
Qed.

Lemma selection_all {A} (P : A -> Prop) (xs : list A) :
  (forall x, List.In x xs -> P x) -> selection P xs xs.
Proof.
  induction xs as [|x xs IH]; intros H; constructor.
  - apply H. now left.
  - apply IH. intros y Hy. apply H. now right.
Qed.

Lemma selection_length {A} (P : A -> Prop) (xs ys : list A) :
  selection P xs ys -> List.length ys <= List.length xs.
Proof. induction 1; simpl; lia. Qed.

(** [format_user_profile] raises nothing but [AttributeError]. *)
Lemma format_user_profile_raise (v : json) (e : exn) :
  format_user_profile v = Raise e -> e = AttributeError.
Proof.
  unfold format_user_profile. destruct (truthy v); [|discriminate]. cbn [negb].
  destruct v as [| | | | | |d]; simpl; intros [= <-]; reflexivity.
Qed.

(** A tool that only reads sends the one GET written for it, whatever
    the peer answers. *)
Lemma read_tool_request (tag username id query : string) (article_id page : Z)
  (tool : io string) (r : request) (w : world) :
  List.In (tool, r) (read_tools tag username id query article_id page) ->
  requests_of (tool w) = (sent w ++ [r])%list.
Proof.
  intros Hin. unfold read_tools in Hin.
  repeat (destruct Hin as [Hin|Hin]; [inversion Hin; subst; clear Hin|]);
    [..|destruct Hin];
    unfold get_latest_articles, get_top_articles, get_articles_by_tag,
      get_article_by_id, search_articles, get_article_details,
      get_articles_by_username, get_user_info, get_request;
    destruct (responses w) as [|[v|e] rest] eqn:Hw; run_io Hw; finish_io.
Qed.

End ToolFacts.

Section ToolProperties.

Context {py : PyBuiltins}.

(** X7.  Each of the eight reading tools sends exactly one request, the GET
    written for it, with no body and no header, whether the peer
    answers, fails or stays silent. *)
Theorem read_tools_send_one_get (tag username id query : string) (article_id page : Z)
  (tool : io string) (r : request) (w : world) :
  List.In (tool, r) (read_tools tag username id query article_id page) ->
  requests_of (tool w) = (sent w ++ [r])%list
  /\ req_method r = GET /\ req_json r = None /\ req_headers r = []
  /\ String.prefix BASE_URL (req_url r) = true.
Proof.
  intros Hin. split; [now apply (read_tool_request tag username id query article_id page)|].
  unfold read_tools in Hin.
  repeat (destruct Hin as [Hin|Hin]; [inversion Hin; subst; clear Hin|]);
    [..|destruct Hin];
    repeat split; apply prefix_append.
Qed.

(** X8.  Apart from [get_user_info], no reading tool catches anything: the
    failure of the fetch, an HTTP 404 included, is the failure of the
    tool. *)
Theorem read_tools_propagate_failure (tag username id query : string)
  (article_id page : Z) (tool : io string) (w : world) (e : exn)
  (rest : list (outcome json)) :
  List.In tool [ get_latest_articles; get_top_articles; get_articles_by_tag tag;
                 get_article_by_id id; search_articles query page;
                 get_article_details article_id;
                 get_articles_by_username username ] ->
  responses w = Raise e :: rest ->
  result_of (tool w) = Raise e.
Proof.
  intros Hin Hw.
  repeat (destruct Hin as [<-|Hin]; [|]); [..|destruct Hin];
    unfold get_latest_articles, get_top_articles, get_articles_by_tag,
      get_article_by_id, search_articles, get_article_details,
      get_articles_by_username; run_io Hw; reflexivity.
Qed.

(** X9.  A listing tool never looks past the tenth entry: two answers with
    the same first ten entries give the same result, whatever follows
    in either. *)
Theorem listing_tools_ignore_the_rest (tag username : string) (tool : io string)
  (l l' : list json) (w w' : world) (rest rest' : list (outcome json)) :
  List.In tool (listing_tools tag username) ->
  responses w = Ok (JList l) :: rest ->
  responses w' = Ok (JList l') :: rest' ->
  List.firstn 10 l = List.firstn 10 l' ->
  result_of (tool w) = result_of (tool w').
Proof.
  intros Hin Hw Hw' E.
  rewrite (listing_tools_result l w rest tag username tool Hw Hin).
  rewrite (listing_tools_result l' w' rest' tag username tool Hw' Hin).
  now rewrite E.
Qed.

(** X10.  A search that no article of the page answers returns
    ["No articles found."]. *)
Theorem search_articles_no_match (query : string) (page_number : Z) (page : list json)
  (w : world) (rest : list (outcome json)) :
  responses w = Ok (JList page) :: rest ->
  List.forallb article_searchable page = true ->
  (forall a, List.In a page -> ~ mentions query a) ->
  result_of (search_articles query page_number w) = Ok "No articles found.".
Proof.
  intros Hw Hp Hno.
  destruct (filtered_articles_loop query page [] Hp) as (kept & E & Hsel).
  assert (K : kept = []).
  { destruct kept as [|x kept]; [reflexivity|].
    destruct (selection_In _ _ _ Hsel x (or_introl eq_refl)) as [Hx Hm].
    now elim (Hno x Hx). }
  subst kept. unfold search_articles. run_io Hw.
  unfold filtered_articles. cbn [py_iter bind]. rewrite E. reflexivity.
Qed.

(** X11.  Searching the results again with the same query changes nothing,
    and a search never returns more articles than the page has. *)
Theorem filtered_articles_idempotent (query : string) (page kept : list json) :
  List.forallb article_searchable page = true ->
  filtered_articles query (JList page) = Ok kept ->
  filtered_articles query (JList kept) = Ok kept
  /\ List.length kept <= List.length page.
Proof.
  intros Hp E.
  destruct (filtered_articles_loop query page [] Hp) as (kept' & E' & Hsel).
  assert (kept' = kept) as ->.
  { unfold filtered_articles in E. cbn [py_iter bind] in E. rewrite E' in E.
    now injection E. }
  split; [|now apply (selection_length _ _ _ Hsel)].
  assert (Hk : List.forallb article_searchable kept = true).
  { apply List.forallb_forall. intros x Hx.
    rewrite List.forallb_forall in Hp. apply Hp.
    now apply (selection_In _ _ _ Hsel). }
  destruct (filtered_articles_loop query kept [] Hk) as (again & E2 & Hsel2).
  assert (Hall : selection (mentions query) kept kept).
  { apply selection_all. intros x Hx. now apply (selection_In _ _ _ Hsel). }
  rewrite (selection_unique _ _ _ _ Hsel2 Hall) in E2. exact E2.
Qed.

(** X12.  What a value that is not a string does to a search.  Under
    ["title"] it makes the whole search raise [AttributeError], wherever
    the article stands in the page and whatever the query.  Under
    ["description"] it does so only if the title does not contain the
    query: when the title does, the description is not looked at. *)
Theorem search_articles_malformed_fields (query : string) (d : list (string * json)) :
  (forall page,
     List.In (JObj d) page -> not_a_string d "title" = true ->
     filtered_articles query (JList page) = Raise AttributeError)
  /\ (forall t,
        Dict.lookup "title" d = Some (JStr t) ->
        contains (str_lower query) (str_lower t) = true ->
        search_matches query (JObj d) = Ok true)
  /\ (forall t page,
        List.In (JObj d) page ->
        Dict.lookup "title" d = Some (JStr t) ->
        contains (str_lower query) (str_lower t) = false ->
        not_a_string d "description" = true ->
        filtered_articles query (JList page) = Raise AttributeError).
Proof.
  split; [|split].
  - intros page Hin Ht. unfold filtered_articles. cbn [py_iter bind].
    apply (filtered_articles_loop_raise query page [] (JObj d) Hin).
    unfold not_a_string, str_or_missing in Ht. unfold search_matches, py_get.
    destruct (Dict.lookup "title" d) as [[| | | |t| |]|]; try discriminate; reflexivity.
  - intros t Ht Hc. unfold search_matches, py_get. rewrite Ht. simpl. now rewrite Hc.
  - intros t page Hin Ht Hc Hd. unfold filtered_articles. cbn [py_iter bind].
    apply (filtered_articles_loop_raise query page [] (JObj d) Hin).
    unfold not_a_string, str_or_missing in Hd. unfold search_matches, py_get.
    rewrite Ht. simpl. rewrite Hc.
    destruct (Dict.lookup "description" d) as [[| | | |s| |]|]; try discriminate;
      reflexivity.
Qed.

(** X13.  The paths of [get_user_info] other than the caught 404.  A failure
    that is not an HTTP status error passes the [except] clause
    untouched.  When the fetch answers, the result is that of
    [format_user_profile] on the answer, its [AttributeError] included:
    a text for every object. *)
Theorem get_user_info_other_paths (username : string) (w : world)
  (rest : list (outcome json)) :
  (forall e,
     responses w = Raise e :: rest -> (forall code, e <> HTTPStatusError code) ->
     result_of (get_user_info username w) = Raise e)
  /\ (forall v,
        responses w = Ok v :: rest ->
        result_of (get_user_info username w) = format_user_profile v)
  /\ (forall u,
        responses w = Ok (JObj u) :: rest ->
        exists out, result_of (get_user_info username w) = Ok out).
Proof.
  assert (A : forall v,
             responses w = Ok v :: rest ->
             result_of (get_user_info username w) = format_user_profile v).
  { intros v Hw. unfold get_user_info. run_io Hw.
    destruct (format_user_profile v) as [out|e] eqn:F; [reflexivity|].
    now rewrite (format_user_profile_raise _ _ F). }
  split; [|split].
  - intros e Hw Hne. unfold get_user_info. run_io Hw.
    destruct e; try reflexivity. now elim (Hne status_code).
  - exact A.
  - intros u Hw. rewrite (A _ Hw). apply format_user_profile_total.
Qed.

(** X14.  [create_article] without [DEV_TO_API_KEY] in the environment
    raises [TypeError] and sends nothing, whatever the peer would
    answer.  With the variable set it sends its one POST, carrying the
    key, whatever the peer answers: a failure of the POST is the failure
    of the tool; an answer that is not an object raises
    [AttributeError] although the article was posted; and an answer
    without ["id"] or ["url"] is reported with [None] in their place. *)
Theorem create_article_outcomes (title body_markdown tags : string) (published : bool)
  (w : world) :
  let run := create_article title body_markdown tags published w in
  (env_lookup "DEV_TO_API_KEY" (environ w) = None ->
   result_of run = Raise TypeError /\ requests_of run = sent w)
  /\ (forall key,
        env_lookup "DEV_TO_API_KEY" (environ w) = Some key ->
        (exists post,
           requests_of run = (sent w ++ [post])%list
           /\ req_method post = POST
           /\ req_url post = BASE_URL ++ "/articles"
           /\ List.In ("api-key", Some key) (req_headers post))
        /\ (forall e rest, responses w = Raise e :: rest -> result_of run = Raise e)
        /\ (forall v rest,
              responses w = Ok v :: rest -> (forall o, v <> JObj o) ->
              result_of run = Raise AttributeError)
        /\ (forall o rest,
              responses w = Ok (JObj o) :: rest ->
              Dict.lookup "id" o = None -> Dict.lookup "url" o = None ->
              result_of run
              = Ok ("Article created successfully with ID: None" ++ nl
                    ++ "URL: None"))).
Proof.
  intros run. subst run. split.
  - intros Hkey. run_create Hkey. split; reflexivity.
  - intros key Hkey. split; [|split; [|split]].
    + eexists. run_create Hkey.
      destruct (responses w) as [|[v|e] rest] eqn:Hw;
        try (destruct (py_get v "id" JNull); cbn [fst snd sent];
             try destruct (py_get v "url" JNull); cbn [fst snd sent]);
        (split; [reflexivity|]); repeat split; simpl; auto.
    + intros e rest Hw. run_create Hkey. rewrite Hw. reflexivity.
    + intros v rest Hw Hv. run_create Hkey. rewrite Hw.
      destruct v as [| | | | | |o]; try reflexivity. now elim (Hv o).
    + intros o rest Hw Hi Hu. run_create Hkey. rewrite Hw.
      unfold py_get. rewrite Hi, Hu. reflexivity.
Qed.

(** X15.  [update_article] after a fetch that succeeded.  A failure of the
    PUT is the failure of the tool, both requests having been sent; an
    answer that is not an object raises [AttributeError]; an answer
    without ["url"] is reported as [URL: None]; and when the caller
    supplied nothing, the PUT is sent all the same, with an empty
    ["article"] object. *)
Theorem update_article_outcomes (article_id : Z) (title body_markdown tags : option string)
  (published : option bool) (w : world) (existing : json) :
  let run := update_article article_id title body_markdown tags published w in
  (forall e rest,
     responses w = Ok existing :: Raise e :: rest ->
     result_of run = Raise e
     /\ List.map req_method (requests_of run)
        = (List.map req_method (sent w) ++ [GET; PUT])%list)
  /\ (forall v rest,
        responses w = Ok existing :: Ok v :: rest -> (forall o, v <> JObj o) ->
        result_of run = Raise AttributeError)
  /\ (forall o rest,
        responses w = Ok existing :: Ok (JObj o) :: rest ->
        Dict.lookup "url" o = None ->
        result_of run = Ok ("Article updated successfully" ++ nl ++ "URL: None"))
  /\ (forall rest,
        responses w = Ok existing :: rest ->
        List.map req_json
          (requests_of (update_article article_id None None None None w))
        = (List.map req_json (sent w)
           ++ [None; Some (JObj [("article", JObj [])])])%list).
Proof.
  intros run. subst run. split; [|split; [|split]].
  - intros e rest Hw. unfold update_article. run_io Hw.
    split; [reflexivity|]. now rewrite <- List.app_assoc, List.map_app.
  - intros v rest Hw Hv. unfold update_article. run_io Hw.
    destruct v as [| | | | | |o]; try reflexivity. now elim (Hv o).
  - intros o rest Hw Hu. unfold update_article. run_io Hw.
    unfold py_get. rewrite Hu. reflexivity.
  - intros rest Hw. unfold update_article.
    destruct rest as [|[v|e] rest]; run_io Hw;
      try (destruct (py_get v "url" JNull)); cbn [fst snd sent];
      now rewrite <- List.app_assoc, List.map_app.
Qed.

(** X16.  No tool talks to anything but the Dev.to API: in every world
    each of the ten tools sends at most two requests, at least one if
    [DEV_TO_API_KEY] is set, and all of them to addresses under
    [BASE_URL]. *)
Theorem tools_stay_on_base_url (tag username id query title body_markdown tags : string)
  (published : bool) (article_id page : Z) (new_title new_body new_tags : option string)
  (new_published : option bool) (tool : io string) (w : world) :
  List.In tool
    (List.map fst (read_tools tag username id query article_id page)
     ++ write_tools title body_markdown tags published
          article_id new_title new_body new_tags new_published)%list ->
  exists new,
    requests_of (tool w) = (sent w ++ new)%list
    /\ List.length new <= 2
    /\ (env_lookup "DEV_TO_API_KEY" (environ w) <> None -> 1 <= List.length new)
    /\ List.Forall (fun r => String.prefix BASE_URL (req_url r) = true) new.
Proof.
  intros Hin. apply List.in_app_or in Hin as [Hin|Hin].
  - apply List.in_map_iff in Hin as ([tool' r] & <- & Hin). cbn [fst].
    exists [r]. split; [now apply (read_tool_request tag username id query article_id page)|].
    split; [simpl; lia|]. split; [simpl; lia|]. constructor; [|constructor].
    unfold read_tools in Hin.
    repeat (destruct Hin as [Hin|Hin]; [inversion Hin; subst; clear Hin|]);
      [..|destruct Hin]; apply prefix_append.
  - destruct Hin as [<-|[<-|[]]].
    + destruct (env_lookup "DEV_TO_API_KEY" (environ w)) as [key|] eqn:Hkey.
      * run_create Hkey.
        destruct (responses w) as [|[v|e] rest] eqn:Hw;
          try (destruct (py_get v "id" JNull); cbn [fst snd sent];
               try destruct (py_get v "url" JNull); cbn [fst snd sent]);
          eexists; (split; [reflexivity|]); (split; [simpl; lia|]);
          (split; [simpl; lia|]); repeat constructor.
      * run_create Hkey. exists []. rewrite List.app_nil_r.
        split; [reflexivity|]. split; [simpl; lia|].
        split; [intros H; now elim H | constructor].
    + unfold update_article.
      destruct (responses w) as [|[existing|e] [|[updated|e'] rest']] eqn:Hw;
        run_io Hw; try (destruct (py_get updated "url" JNull));
        cbn [fst snd sent]; rewrite <- ?List.app_assoc;
        eexists; (split; [reflexivity|]); (split; [simpl; lia|]);
        (split; [simpl; lia|]);
        repeat constructor; apply (prefix_append BASE_URL).
Qed.

End ToolProperties.

(** ** Instances of the further properties *)

Lemma format_articles_extends_witness :
  exists front,
    format_articles (py := ascii_builtins) (JList [sample_article]) = Ok front
    /\ format_articles (py := ascii_builtins) (JList [sample_article; sparse_article])
       = Ok (front
             ++ cat (List.map (article_block (py := ascii_builtins)) [sparse_article])).
Proof.
  destruct (format_articles_extends (py := ascii_builtins)
              [sample_article] [sparse_article])
    as (front & E1 & E2); [discriminate | reflexivity |].
  exists front. split; [exact E1 | exact E2].
Defined.

Lemma format_articles_line_layout_witness :
  exists out,
    format_articles (py := ascii_builtins) (JList [sample_article; sparse_article])
    = Ok out
    /\ List.length (lines out) = 17
    /\ List.nth_error (lines out) 9 = Some "## Untitled".
Proof.
  destruct (format_articles_line_layout (py := ascii_builtins)
              sample_article [sparse_article])
    as (out & E & _ & Hn & Hk); [reflexivity | reflexivity |].
  exists out. split; [exact E|]. split; [exact Hn|].
  apply (Hk 1 [("id", JInt 7)]). reflexivity.
Defined.

Lemma format_article_details_outcomes_witness :
  format_article_details (py := ascii_builtins) bodyless_article = Raise TypeError.
Proof.
  apply (format_article_details_outcomes (py := ascii_builtins) bodyless_article).
  reflexivity.
Defined.

Lemma format_article_details_body_lines_witness :
  exists out,
    format_article_details (py := ascii_builtins) (JObj sample_post) = Ok out
    /\ lines out
       = [ "# Hello Python"; ""; "Author: Ann"; "Published: Unknown date"; "Tags: ";
           ""; "## Content"; ""; "First line"; "Second line" ].
Proof.
  destruct (format_article_details_body_lines (py := ascii_builtins) sample_post)
    as (out & E & L); [discriminate | reflexivity | reflexivity |].
  exists out. split; [exact E|]. rewrite L. reflexivity.
Defined.

Lemma null_is_not_missing_witness :
  exists out,
    format_user_profile (py := ascii_builtins) (JObj no_bio_user) = Ok out
    /\ List.In "Bio: None" (lines out).
Proof.
  apply (proj1 (null_is_not_missing (py := ascii_builtins) no_bio_user)).
  reflexivity.
Defined.

Lemma read_tools_send_one_get_witness :
  requests_of (get_articles_by_tag (py := ascii_builtins) "python" (peer [] []))
  = [ get_request "/articles" (Some [("tag", JStr "python")]) ].
Proof.
  apply (read_tools_send_one_get (py := ascii_builtins) "python" "ann" "42" "py" 42 1
           (get_articles_by_tag (py := ascii_builtins) "python")
           (get_request "/articles" (Some [("tag", JStr "python")]))
           (peer [] [])).
  simpl. auto.
Defined.

Lemma read_tools_propagate_failure_witness :
  result_of (get_article_details (py := ascii_builtins) 42
               (peer [Raise (HTTPStatusError 404)] []))
  = Raise (HTTPStatusError 404).
Proof.
  apply (read_tools_propagate_failure (py := ascii_builtins) "python" "ann" "42" "py" 42 1
           (get_article_details (py := ascii_builtins) 42)
           (peer [Raise (HTTPStatusError 404)] []) (HTTPStatusError 404) []).
  - simpl. auto 8.
  - reflexivity.
Defined.

Lemma listing_tools_ignore_the_rest_witness :
  result_of (get_top_articles (py := ascii_builtins)
               (peer [Ok (JList (List.repeat sparse_article 10 ++ [anonymous_article]))] []))
  = result_of (get_top_articles (py := ascii_builtins)
                 (peer [Ok (JList (List.repeat sparse_article 10))] [])).
Proof.
  apply (listing_tools_ignore_the_rest (py := ascii_builtins) "python" "ann"
           (get_top_articles (py := ascii_builtins))
           (List.repeat sparse_article 10 ++ [anonymous_article])
           (List.repeat sparse_article 10)
           (peer [Ok (JList (List.repeat sparse_article 10 ++ [anonymous_article]))] [])
           (peer [Ok (JList (List.repeat sparse_article 10))] []) [] []).
  - simpl. auto.
  - reflexivity.
  - reflexivity.
  - reflexivity.
Defined.

Lemma search_articles_no_match_witness :
  result_of (search_articles (py := ascii_builtins) "rust" 1
               (peer [Ok (JList [sample_article; sparse_article])] []))
  = Ok "No articles found.".
Proof.
  apply (search_articles_no_match (py := ascii_builtins) "rust" 1
           [sample_article; sparse_article]
           (peer [Ok (JList [sample_article; sparse_article])] []) []).
  - reflexivity.
  - reflexivity.
  - intros a [<-|[<-|[]]] [H|H]; apply contains_spec in H; vm_compute in H;
      discriminate.
Defined.

Lemma filtered_articles_idempotent_witness :
  filtered_articles (py := ascii_builtins) "py" (JList [sample_article])
  = Ok [sample_article].
Proof.
  apply (filtered_articles_idempotent (py := ascii_builtins) "py"
           [sample_article; sparse_article] [sample_article]); reflexivity.
Defined.

Lemma search_articles_malformed_fields_witness :
  search_matches (py := ascii_builtins) "py" (JObj undescribed_article) = Ok true
  /\ filtered_articles (py := ascii_builtins) "rust"
       (JList [sample_article; JObj undescribed_article])
     = Raise AttributeError.
Proof.
  destruct (search_articles_malformed_fields (py := ascii_builtins) "py"
              undescribed_article) as (_ & Hit & _).
  destruct (search_articles_malformed_fields (py := ascii_builtins) "rust"
              undescribed_article) as (_ & _ & Miss).
  split.
  - apply (Hit "Python"); reflexivity.
  - apply (Miss "Python"); [simpl; auto | reflexivity | reflexivity | reflexivity].
Defined.

Lemma get_user_info_other_paths_witness :
  result_of (get_user_info (py := ascii_builtins) "ann" (peer [Raise RequestError] []))
  = Raise RequestError.
Proof.
  apply (proj1 (get_user_info_other_paths (py := ascii_builtins) "ann"
                  (peer [Raise RequestError] []) [])).
  - reflexivity.
  - discriminate.
Defined.

Lemma create_article_outcomes_witness :
  result_of (create_article (py := ascii_builtins) "Title" "Body" "" false
               (peer [Ok (JObj [])] [("DEV_TO_API_KEY", "secret")]))
  = Ok ("Article created successfully with ID: None" ++ nl ++ "URL: None")
  /\ result_of (create_article (py := ascii_builtins) "Title" "Body" "" false
                  (peer [Ok (JObj [])] []))
     = Raise TypeError.
Proof.
  destruct (create_article_outcomes (py := ascii_builtins) "Title" "Body" "" false
              (peer [Ok (JObj [])] [("DEV_TO_API_KEY", "secret")])) as (_ & Hset).
  destruct (Hset "secret" eq_refl) as (_ & _ & _ & H).
  destruct (create_article_outcomes (py := ascii_builtins) "Title" "Body" "" false
              (peer [Ok (JObj [])] [])) as (Hunset & _).
  split.
  - apply (H [] []); reflexivity.
  - apply Hunset. reflexivity.
Defined.

Lemma update_article_outcomes_witness :
  result_of (update_article (py := ascii_builtins) 7 (Some "New title") None None None
               (peer [Ok sparse_article; Raise (HTTPStatusError 401)] []))
  = Raise (HTTPStatusError 401).
Proof.
  destruct (update_article_outcomes (py := ascii_builtins) 7 (Some "New title")
              None None None
              (peer [Ok sparse_article; Raise (HTTPStatusError 401)] [])
              sparse_article) as (H & _).
  apply (H (HTTPStatusError 401) []). reflexivity.
Defined.

Lemma tools_stay_on_base_url_witness :
  exists new,
    requests_of (get_user_info (py := ascii_builtins) "ann"
                   (peer [Raise (HTTPStatusError 404)] []))
    = new
    /\ List.Forall (fun r => String.prefix BASE_URL (req_url r) = true) new.
Proof.
  destruct (tools_stay_on_base_url (py := ascii_builtins)
              "python" "ann" "42" "py" "Title" "Body" "" false 42 1 None None None None
              (get_user_info (py := ascii_builtins) "ann")
              (peer [Raise (HTTPStatusError 404)] []))
    as (new & E & _ & _ & F); [simpl; auto 12|].
  exists new. split; [exact E | exact F].
Defined.
